(** * VideoRatioTool: aspect-ratio conversion of the videos of a folder

    A shallow embedding of [src/VideoRatioTool.py] and the properties of its
    dimension computation and of its orchestration.

    - [Python]: the exceptions the code can meet and the result type.
    - [Binary64]: Python's [float] (IEEE-754 binary64, round to nearest, ties
      to even) restricted to the operations the code performs:
      [int / int], [int * float], [int / float], [int(float)], [>].
    - [Text]: the string operations ([split], [int(str)], [lower],
      [endswith], [os.path.join], [os.path.splitext]).
    - [Geometry]: the crop and letterbox computations of the loop body.
    - [Exact]: the same computations as the specification words them, over
      the rationals.
    - [Tool]: [convert_videos_in_folder] as a program over the calls it makes
      to the operating system and to moviepy, run against any environment.
    - [Stated], [Run], [Calls], [Observe]: the predicates the statements
      about the computations and about the traces of a run are written with.

    The theorems follow the definitions: first the arithmetic of rounding,
    then the bounds of the computed dimensions, then the runs. *)

From Stdlib Require Import ZArith Lia Bool List String Ascii QArith Qround.
From Stdlib Require Floats.SpecFloat.
Import ListNotations.
Local Open Scope Z_scope.

(** ** Exceptions and results *)

Module Python.

(** The exception classes that matter: the three the arithmetic raises and
    whatever moviepy raises (identified by a tag). All four derive from
    [Exception]. *)
Inductive exn : Type :=
| ValueError
| ZeroDivisionError
| OverflowError
| LibraryError (tag : nat).

Inductive result (A : Type) : Type :=
| Ok (a : A)
| Raise (e : exn).
Arguments Ok {A} a.
Arguments Raise {A} e.

Definition bind {A B} (r : result A) (k : A -> result B) : result B :=
  match r with
  | Ok a => k a
  | Raise e => Raise e
  end.

End Python.
Import Python.

Declare Scope py_scope.
Delimit Scope py_scope with py.
Notation "x <- r ;; k" := (Python.bind r (fun x => k))
  (at level 61, r at next level, right associativity) : py_scope.

(** ** Python floats *)

Module Binary64.

(** Every finite double is an integer multiple of 2^-1074 (the smallest
    subnormal). [Finite n] is the double of value [n * 2^-1074]; the two
    zeros are identified (the code never divides by a zero without raising,
    and [int] and [>] do not tell them apart). NaN cannot arise from the
    operations below on finite operands and is not represented. *)
Inductive pyfloat : Type :=
| Finite (ulps : Z)
| Infinity (negative : bool).

(** Number of low bits of the quotient [x / d] (in units of 2^-1074) that
    do not fit in a 53-bit significand. *)
Definition ulp_shift (x d : Z) : Z := Z.max 0 (Z.log2 (x / d) - 52).

(** [num / den] rounded to the nearest integer, ties to even. *)
Definition round_half_even (num den : Z) : Z :=
  let q := num / den in
  let r := num mod den in
  if (den <? 2 * r) || ((den =? 2 * r) && Z.odd q) then q + 1 else q.

(** The double nearest to the rational [n / d], for [0 <= n] and [0 < d]:
    infinite from 2^1024 on. *)
Definition round_pos (n d : Z) : pyfloat :=
  let x := n * 2 ^ 1074 in
  let sh := ulp_shift x d in
  let m := round_half_even x (d * 2 ^ sh) in
  if 2 ^ 2098 <=? m * 2 ^ sh then Infinity false else Finite (m * 2 ^ sh).

Definition fneg (x : pyfloat) : pyfloat :=
  match x with
  | Finite n => Finite (- n)
  | Infinity s => Infinity (negb s)
  end.

(** The double nearest to [n / d] for any sign, [d <> 0]. *)
Definition round (n d : Z) : pyfloat :=
  let n' := if d <? 0 then - n else n in
  let d' := Z.abs d in
  if n' <? 0 then fneg (round_pos (- n') d') else round_pos n' d'.

(** [a / b] on ints ([long_true_divide]): correctly rounded. *)
Definition int_truediv (a b : Z) : result pyfloat :=
  if b =? 0 then Raise ZeroDivisionError
  else match round a b with
       | Finite n => Ok (Finite n)
       | Infinity _ => Raise OverflowError
       end.

(** [float(n)] as the mixed operations apply it ([PyLong_AsDouble]). *)
Definition float_of_int (n : Z) : result pyfloat :=
  match round n 1 with
  | Finite u => Ok (Finite u)
  | Infinity _ => Raise OverflowError
  end.

(** [x * y] on floats: no exception, overflow gives an infinity. *)
Definition float_mul (x y : pyfloat) : pyfloat :=
  match x, y with
  | Finite a, Finite b => round (a * b) (2 ^ 2148)
  | Finite a, Infinity s => Infinity (xorb (a <? 0) s)
  | Infinity s, Finite b => Infinity (xorb s (b <? 0))
  | Infinity s, Infinity s' => Infinity (xorb s s')
  end.

(** [x / y] on floats ([float_div]): only a zero divisor raises. *)
Definition float_div (x y : pyfloat) : result pyfloat :=
  match x, y with
  | _, Finite 0 => Raise ZeroDivisionError
  | Finite a, Finite b => Ok (round a b)
  | Finite _, Infinity _ => Ok (Finite 0)
  | Infinity s, Finite b => Ok (Infinity (xorb s (b <? 0)))
  | Infinity s, Infinity s' => Ok (Infinity (xorb s s'))
  end.

(** [n * y] and [n / y] with an int on the left. *)
Definition int_mul_float (n : Z) (y : pyfloat) : result pyfloat :=
  (x <- float_of_int n ;; Ok (float_mul x y))%py.

Definition int_div_float (n : Z) (y : pyfloat) : result pyfloat :=
  (x <- float_of_int n ;; float_div x y)%py.

(** [int(x)]: truncation toward zero. *)
Definition int_of_float (x : pyfloat) : result Z :=
  match x with
  | Finite n => Ok (Z.quot n (2 ^ 1074))
  | Infinity _ => Raise OverflowError
  end.

(** [x > y]. *)
Definition float_gt (x y : pyfloat) : bool :=
  match x, y with
  | Finite a, Finite b => b <? a
  | Infinity s, Infinity s' => negb s && s'
  | Infinity s, Finite _ => negb s
  | Finite _, Infinity s => s
  end.

(** The value of one of Stdlib's [spec_float]s (a significand and an
    exponent no smaller than -1074), for comparison with its reference
    operations [SFdiv] and [SFmul]. *)
Definition of_spec_float (x : SpecFloat.spec_float) : option pyfloat :=
  match x with
  | SpecFloat.S754_zero _ => Some (Finite 0)
  | SpecFloat.S754_infinity s => Some (Infinity s)
  | SpecFloat.S754_nan => None
  | SpecFloat.S754_finite s m e =>
      Some (Finite ((if s then Zneg m else Zpos m) * 2 ^ (e + 1074)))
  end.

(** The doubles: at most 53 significant bits, below 2^1024. *)
Definition representable (u : Z) : Prop :=
  exists m k, u = m * 2 ^ k /\ 0 <= m <= 2 ^ 53 /\ 0 <= k /\ u < 2 ^ 2098.

End Binary64.
Import Binary64.

(** ** Strings *)

Module Text.
Local Open Scope string_scope.

(** Python strings are modelled by their ASCII subset: a [string] is the
    sequence of its characters, all below 128. Strings with other
    characters (among them the non-ASCII decimal digits and white space
    that [int] accepts) are outside the model. The separators 0x1C-0x1F,
    which [str.isspace] accepts but [Py_ISSPACE] does not, are not white
    space here. *)

(** [Py_ISSPACE]: space, tab, line feed, vertical tab, form feed, carriage
    return. *)
Definition is_space (c : ascii) : bool :=
  let n := nat_of_ascii c in
  (Nat.eqb n 32) || ((Nat.leb 9 n) && (Nat.leb n 13)).

Definition is_digit (c : ascii) : bool :=
  let n := nat_of_ascii c in (Nat.leb 48 n) && (Nat.leb n 57).

Definition digit_value (c : ascii) : Z := Z.of_nat (nat_of_ascii c) - 48.

Fixpoint lstrip (s : string) : string :=
  match s with
  | String c s' => if is_space c then lstrip s' else s
  | EmptyString => EmptyString
  end.

Fixpoint all_space (s : string) : bool :=
  match s with
  | String c s' => is_space c && all_space s'
  | EmptyString => true
  end.

(** The digits of a decimal literal: [digit ("_"? digit)*], followed by
    white space only. [seen] tells whether the previous character was a
    digit, [acc] is the value read so far. *)
Fixpoint digits (s : string) (seen : bool) (acc : Z) : result Z :=
  match s with
  | EmptyString => if seen then Ok acc else Raise ValueError
  | String c s' =>
      if is_digit c then digits s' true (10 * acc + digit_value c)
      else if Ascii.eqb c "_" then
        match s' with
        | String c' _ =>
            if seen && is_digit c' then digits s' false acc
            else Raise ValueError
        | EmptyString => Raise ValueError
        end
      else if seen && all_space s then Ok acc
      else Raise ValueError
  end.

(** The number of digit characters. *)
Fixpoint digit_count (s : string) : nat :=
  match s with
  | String c s' => (if is_digit c then 1 else 0) + digit_count s'
  | EmptyString => 0
  end.

(** [sys.int_info.default_max_str_digits]: CPython refuses to convert a
    numeral of more digits. *)
Definition max_str_digits : nat := 4300.

(** [int(s)] for a string, base 10 ([PyLong_FromString]): white space is
    stripped on both sides, one sign is allowed, underscores may separate
    digits, and there are at most [max_str_digits] digits (in a well-formed
    numeral every digit of the string belongs to it). Anything else is a
    [ValueError]. *)
Definition int_of_string (s : string) : result Z :=
  if Nat.ltb max_str_digits (digit_count s) then Raise ValueError
  else
    match lstrip s with
    | String "+" s' => digits s' false 0
    | String "-" s' => (n <- digits s' false 0 ;; Ok (- n))%py
    | s' => digits s' false 0
    end.

(** [s.split(sep)] for a one-character separator: never empty. *)
Fixpoint split (sep : ascii) (s : string) : list string :=
  match s with
  | EmptyString => [EmptyString]
  | String c s' =>
      if Ascii.eqb c sep then EmptyString :: split sep s'
      else match split sep s' with
           | piece :: rest => String c piece :: rest
           | [] => [String c EmptyString]
           end
  end.

(** [c.lower()] on ASCII. *)
Definition lower_char (c : ascii) : ascii :=
  let n := nat_of_ascii c in
  if (Nat.leb 65 n) && (Nat.leb n 90) then ascii_of_nat (n + 32) else c.

Fixpoint lower (s : string) : string :=
  match s with
  | String c s' => String (lower_char c) (lower s')
  | EmptyString => EmptyString
  end.

Fixpoint drop (n : nat) (s : string) : string :=
  match n, s with
  | S k, String _ s' => drop k s'
  | _, _ => s
  end.

Fixpoint take (n : nat) (s : string) : string :=
  match n, s with
  | S k, String c s' => String c (take k s')
  | _, _ => EmptyString
  end.

(** [s.endswith(suffix)]. *)
Definition endswith (s suffix : string) : bool :=
  (Nat.leb (length suffix) (length s))
  && String.eqb (drop (length s - length suffix) s) suffix.

(** [filename.lower().endswith(('.mp4', '.mov', '.avi'))]. *)
Definition is_video_name (filename : string) : bool :=
  let f := lower filename in
  endswith f ".mp4" || endswith f ".mov" || endswith f ".avi".

(** [s.rfind(c)]: the index of the last occurrence, or -1. *)
Fixpoint rfind_from (c : ascii) (s : string) (i : Z) (found : Z) : Z :=
  match s with
  | EmptyString => found
  | String c' s' => rfind_from c s' (i + 1) (if Ascii.eqb c' c then i else found)
  end.

Definition rfind (c : ascii) (s : string) : Z := rfind_from c s 0 (-1).

Fixpoint all_dots (s : string) : bool :=
  match s with
  | String c s' => Ascii.eqb c "." && all_dots s'
  | EmptyString => true
  end.

(** [os.path.splitext(p)] ([genericpath._splitext] with separator "/"): the
    extension starts at the last dot of the last component, unless only
    dots precede it there. *)
Definition splitext (p : string) : string * string :=
  let sepIndex := rfind "/" p in
  let dotIndex := rfind "." p in
  if (sepIndex <? dotIndex)%Z then
    let lead := take (Z.to_nat (dotIndex - (sepIndex + 1)))
                     (drop (Z.to_nat (sepIndex + 1)) p) in
    if all_dots lead then (p, EmptyString)
    else (take (Z.to_nat dotIndex) p, drop (Z.to_nat dotIndex) p)
  else (p, EmptyString).

Definition startswith_slash (s : string) : bool :=
  match s with
  | String "/" _ => true
  | _ => false
  end.

(** [os.path.join(a, b)] ([posixpath.join] with two components). *)
Definition path_join (a b : string) : string :=
  if startswith_slash b then b
  else if (String.eqb a "") || endswith a "/" then a ++ b
  else a ++ "/" ++ b.

(** [w_ratio, h_ratio = map(int, s.split(':'))] followed by the test
    [w_ratio <= 0 or h_ratio <= 0]: every failure is a [ValueError]. With
    more than two pieces the unpacking still converts the third piece
    before it fails; the exception class is the same. *)
Definition parse_ratio (target_aspect_ratio : string) : result (Z * Z) :=
  match split ":" target_aspect_ratio with
  | [sw; sh] =>
      (w_ratio <- int_of_string sw ;;
       h_ratio <- int_of_string sh ;;
       if ((w_ratio <=? 0) || (h_ratio <=? 0))%Z then Raise ValueError
       else Ok (w_ratio, h_ratio))%py
  | _ => Raise ValueError
  end.

End Text.

(** ** The dimension computations of the loop body *)

Module Geometry.

(** [n if n % 2 == 0 else n - 1]. *)
Definition make_even (n : Z) : Z := if n mod 2 =? 0 then n else n - 1.

(** The keyword arguments of [clip.crop]. *)
Inductive crop_call : Type :=
| crop_x (x_center : pyfloat) (width : Z)
| crop_y (y_center : pyfloat) (height : Z).

(** Lines 83-96, up to the call of [clip.crop]. *)
Definition crop_branch (original_width original_height : Z)
    (original_aspect target_aspect : pyfloat) : result crop_call :=
  (if float_gt original_aspect target_aspect then
     p <- int_mul_float original_height target_aspect ;;
     new_width <- int_of_float p ;;
     let new_width := make_even new_width in
     x_center <- int_truediv original_width 2 ;;
     Ok (crop_x x_center new_width)
   else
     p <- int_div_float original_width target_aspect ;;
     new_height <- int_of_float p ;;
     let new_height := make_even new_height in
     y_center <- int_truediv original_height 2 ;;
     Ok (crop_y y_center new_height))%py.

(** Lines 102-113: [(final_width, final_height)]. *)
Definition letterbox_branch (original_width original_height : Z)
    (original_aspect target_aspect : pyfloat) : result (Z * Z) :=
  (if float_gt original_aspect target_aspect then
     let final_width := original_width in
     p <- int_div_float original_width target_aspect ;;
     final_height <- int_of_float p ;;
     let final_height := make_even final_height in
     Ok (final_width, final_height)
   else
     p <- int_mul_float original_height target_aspect ;;
     final_width <- int_of_float p ;;
     let final_width := make_even final_width in
     let final_height := original_height in
     Ok (final_width, final_height))%py.

(** Lines 74-75. *)
Definition aspects (original_width original_height w_ratio h_ratio : Z)
  : result (pyfloat * pyfloat) :=
  (original_aspect <- int_truediv original_width original_height ;;
   target_aspect <- int_truediv w_ratio h_ratio ;;
   Ok (original_aspect, target_aspect))%py.

(** The crop computation from the clip size and the parsed ratio. *)
Definition crop (original_width original_height w_ratio h_ratio : Z)
  : result crop_call :=
  (a <- aspects original_width original_height w_ratio h_ratio ;;
   crop_branch original_width original_height (fst a) (snd a))%py.

(** The letterbox computation from the clip size and the parsed ratio. *)
Definition letterbox (original_width original_height w_ratio h_ratio : Z)
  : result (Z * Z) :=
  (a <- aspects original_width original_height w_ratio h_ratio ;;
   letterbox_branch original_width original_height (fst a) (snd a))%py.

End Geometry.

(** ** The computations as the specification words them *)

Module Exact.
Local Open Scope Q_scope.

(** width / height and w_ratio / h_ratio as rationals. *)
Definition aspect (a b : Z) : Q := inject_Z a / inject_Z b.

Definition wider (width height w_ratio h_ratio : Z) : bool :=
  negb (Qle_bool (aspect width height) (aspect w_ratio h_ratio)).

Definition decrement_if_odd (n : Z) : Z := if Z.odd n then (n - 1)%Z else n.

Inductive crop_rectangle : Type :=
| keep_height (new_width : Z) (x_center : Q)
| keep_width (new_height : Z) (y_center : Q).

Definition crop (width height w_ratio h_ratio : Z) : crop_rectangle :=
  if wider width height w_ratio h_ratio then
    keep_height
      (decrement_if_odd (Qfloor (inject_Z height * aspect w_ratio h_ratio)))
      (inject_Z width / 2)
  else
    keep_width
      (decrement_if_odd (Qfloor (inject_Z width / aspect w_ratio h_ratio)))
      (inject_Z height / 2).

(** (final_width, final_height). *)
Definition letterbox (width height w_ratio h_ratio : Z) : Z * Z :=
  if wider width height w_ratio h_ratio then
    (width,
     decrement_if_odd (Qfloor (inject_Z width / aspect w_ratio h_ratio)))
  else
    (decrement_if_odd (Qfloor (inject_Z height * aspect w_ratio h_ratio)),
     height).

(** The rational a finite double stands for. *)
Definition value (x : pyfloat) : option Q :=
  match x with
  | Finite n => Some (Qmake n (Z.to_pos (2 ^ 1074)))
  | Infinity _ => None
  end.

Definition same_center (x : pyfloat) (q : Q) : Prop :=
  match value x with
  | Some v => v == q
  | None => False
  end.

(** The arguments passed to [clip.crop] are those of the rectangle. *)
Definition crop_matches (c : Geometry.crop_call) (r : crop_rectangle) : Prop :=
  match c, r with
  | Geometry.crop_x x_center width, keep_height new_width x =>
      width = new_width /\ same_center x_center x
  | Geometry.crop_y y_center height, keep_width new_height y =>
      height = new_height /\ same_center y_center y
  | _, _ => False
  end.

End Exact.

(** ** The function and the calls it makes *)

Module Tool.
Import Text Geometry.
Local Open Scope string_scope.

(** What [VideoFileClip] returns, as far as the function reads it. *)
Record clip : Type := {
  handle : nat;
  size : Z * Z;
  duration : pyfloat;
  fps : pyfloat
}.

(** A transformed clip: an opaque moviepy object. *)
Definition new_clip : Type := nat.

(** The lines the function prints. *)
Inductive message : Type :=
| msg_input_missing (folder_path : string)     (* line 43, an error *)
| msg_creating_output (output_path : string)   (* line 48 *)
| msg_processing_folder (folder_path : string) (* line 51 *)
| msg_bad_ratio                                (* line 59, an error *)
| msg_cropping (filename : string)             (* line 81 *)
| msg_letterboxing (filename : string)         (* line 100 *)
| msg_bad_method (conversion_method : string)  (* line 121, an error *)
| msg_saving (new_filename : string)           (* line 131 *)
| msg_done                                     (* line 138 *)
| msg_file_error (filename : string) (e : exn) (* line 141, an error *).

(** The calls to the operating system and to moviepy, indexed by the type
    of what they return. The [os] calls and [close] are taken to succeed
    (the function does not catch their failure); moviepy's constructors
    and [write_videofile] may raise inside the [try]. The two steps of the
    letterbox (a [ColorClip] of the canvas size with its colour, then the
    [CompositeVideoClip] of it and of the clip at position "center") are
    one call. *)
Inductive call : Type -> Type :=
| os_path_isdir (path : string) : call bool
| os_path_exists (path : string) : call bool
| os_makedirs (path : string) : call unit
| os_listdir (path : string) : call (list string)
| os_path_isfile (path : string) : call bool
| print (m : message) : call unit
| VideoFileClip (path : string) : call (result clip)
| clip_crop (c : clip) (args : crop_call) : call (result new_clip)
| composite_on_color (c : clip) (canvas : Z * Z) (color : Z * Z * Z)
    (pos : string) : call (result new_clip)
| write_videofile (nc : new_clip) (path codec preset : string)
    (fps : pyfloat) : call (result unit)
| clip_close (c : clip) : call unit
| new_clip_close (nc : new_clip) : call unit.

(** Programs: a tree of calls, each continued on its answer. *)
Inductive prog (A : Type) : Type :=
| Ret (a : A)
| Vis (R : Type) (c : call R) (k : R -> prog A).
Arguments Ret {A} a.
Arguments Vis {A R} c k.

Fixpoint pbind {A B} (p : prog A) (f : A -> prog B) : prog B :=
  match p with
  | Ret a => f a
  | Vis c k => Vis c (fun r => pbind (k r) f)
  end.

Definition perform {R} (c : call R) : prog R := Vis c Ret.

(** The local variables that outlive an iteration: [clip] and [new_clip],
    unbound ([None]) until their first assignment. *)
Record locals : Type := {
  clip_var : option clip;
  new_clip_var : option (option new_clip)
}.

Definition no_locals : locals := {| clip_var := None; new_clip_var := None |}.

(** The body of the [try]: a program over the locals that may raise. *)
Definition block (A : Type) : Type := locals -> prog (locals * result A).

Definition bret {A} (a : A) : block A := fun l => Ret (l, Ok a).

Definition bbind {A B} (b : block A) (f : A -> block B) : block B :=
  fun l => pbind (b l) (fun lr =>
    match snd lr with
    | Ok a => f a (fst lr)
    | Raise e => Ret (fst lr, Raise e)
    end).

(** A call that cannot raise, a call that can, a pure computation. *)
Definition io {R} (c : call R) : block R :=
  fun l => pbind (perform c) (fun r => Ret (l, Ok r)).

Definition lib {R} (c : call (result R)) : block R :=
  fun l => pbind (perform c) (fun r => Ret (l, r)).

Definition pure {A} (r : result A) : block A := fun l => Ret (l, r).

Definition set_clip (c : clip) : block unit :=
  fun l => Ret ({| clip_var := Some c; new_clip_var := new_clip_var l |}, Ok tt).

Definition set_new_clip (v : option new_clip) : block unit :=
  fun l => Ret ({| clip_var := clip_var l; new_clip_var := Some v |}, Ok tt).

Declare Scope block_scope.
Delimit Scope block_scope with block.
Notation "x <- b ;; k" := (bbind b (fun x => k))
  (at level 61, b at next level, right associativity) : block_scope.
Notation "b ;; k" := (bbind b (fun _ => k))
  (at level 61, right associativity) : block_scope.

Declare Scope prog_scope.
Delimit Scope prog_scope with prog.
Notation "x <- p ;; k" := (pbind p (fun x => k))
  (at level 61, p at next level, right associativity) : prog_scope.
Notation "p ;; k" := (pbind p (fun _ => k))
  (at level 61, right associativity) : prog_scope.

Section Function.

(** The module global and the arguments of the function; [w_ratio] and
    [h_ratio] are the locals the loop reads. *)
Variable MOVIEPY_INSTALLED : bool.
Variables folder_path output_path target_aspect_ratio : string.
Variables conversion_method output_suffix : string.

(** Lines 124-138. A clip object is always true, so [if new_clip:] is
    passed. *)
Definition save (filename : string) (c : clip) (nc : new_clip) : block unit :=
  (let name := fst (splitext filename) in
   let extension := snd (splitext filename) in
   let new_filename := name ++ output_suffix ++ extension in
   let new_file_path := path_join output_path new_filename in
   io (print (msg_saving new_filename)) ;;
   lib (write_videofile nc new_file_path "mpeg4" "medium" (fps c)) ;;
   io (print msg_done))%block.

(** Lines 70-138, the body of the [try]. The [continue] of the last
    branch leaves it normally. *)
Definition try_body (w_ratio h_ratio : Z) (filename old_file_path : string)
  : block unit :=
  (c <- lib (VideoFileClip old_file_path) ;;
   set_clip c ;;
   let original_width := fst (size c) in
   let original_height := snd (size c) in
   original_aspect <- pure (int_truediv original_width original_height) ;;
   target_aspect <- pure (int_truediv w_ratio h_ratio) ;;
   set_new_clip None ;;
   if String.eqb conversion_method "crop" then
     io (print (msg_cropping filename)) ;;
     args <- pure (crop_branch original_width original_height
                     original_aspect target_aspect) ;;
     nc <- lib (clip_crop c args) ;;
     set_new_clip (Some nc) ;;
     save filename c nc
   else if String.eqb conversion_method "letterbox" then
     io (print (msg_letterboxing filename)) ;;
     canvas <- pure (letterbox_branch original_width original_height
                       original_aspect target_aspect) ;;
     nc <- lib (composite_on_color c canvas (0, 0, 0)%Z "center") ;;
     set_new_clip (Some nc) ;;
     save filename c nc
   else
     io (print (msg_bad_method conversion_method)))%block.

(** Lines 140-146: the handler and the [finally]. *)
Definition handler (filename : string) (r : result unit) : prog unit :=
  match r with
  | Ok _ => Ret tt
  | Raise e => perform (print (msg_file_error filename e))
  end.

Definition finally (l : locals) : prog unit :=
  ((match clip_var l with
    | Some c => perform (clip_close c)
    | None => Ret tt
    end) ;;
   match new_clip_var l with
   | Some (Some nc) => perform (new_clip_close nc)
   | _ => Ret tt
   end)%prog.

(** Lines 64-146: one round of the loop. *)
Definition iteration (w_ratio h_ratio : Z) (filename : string) (l : locals)
  : prog locals :=
  (let old_file_path := path_join folder_path filename in
   isfile <- perform (os_path_isfile old_file_path) ;;
   if isfile && is_video_name filename then
     lr <- try_body w_ratio h_ratio filename old_file_path l ;;
     handler filename (snd lr) ;;
     finally (fst lr) ;;
     Ret (fst lr)
   else Ret l)%prog.

(** Lines 63-146: the loop over the listing. *)
Fixpoint for_each (w_ratio h_ratio : Z) (filenames : list string)
    (l : locals) : prog unit :=
  match filenames with
  | [] => Ret tt
  | filename :: rest =>
      (l' <- iteration w_ratio h_ratio filename l ;;
       for_each w_ratio h_ratio rest l')%prog
  end.

(** Lines 38-146. *)
Definition convert_videos_in_folder : prog unit :=
  (if negb MOVIEPY_INSTALLED then Ret tt
   else
     isdir <- perform (os_path_isdir folder_path) ;;
     if negb isdir then perform (print (msg_input_missing folder_path))
     else
       present <- perform (os_path_exists output_path) ;;
       (if negb present then
          perform (print (msg_creating_output output_path)) ;;
          perform (os_makedirs output_path)
        else Ret tt) ;;
       perform (print (msg_processing_folder folder_path)) ;;
       match parse_ratio target_aspect_ratio with
       | Raise _ => perform (print msg_bad_ratio)
       | Ok (w_ratio, h_ratio) =>
           filenames <- perform (os_listdir folder_path) ;;
           for_each w_ratio h_ratio filenames no_locals
       end)%prog.

End Function.

(** *** Running a program *)

(** A call together with its answer. *)
Inductive event : Type :=
| Ev (R : Type) (c : call R) (r : R).
Arguments Ev {R} c r.

(** An environment answers every call from its current state. *)
Record environment : Type := {
  world : Type;
  respond : forall R, call R -> world -> R * world
}.

(** The events of a run, its result and the final state. *)
Fixpoint exec (E : environment) {A} (p : prog A) (s : world E)
  : list event * A * world E :=
  match p with
  | Ret a => ([], a, s)
  | Vis c k =>
      let rs := respond E _ c s in
      let out := exec E (k (fst rs)) (snd rs) in
      (Ev c (fst rs) :: fst (fst out), snd (fst out), snd out)
  end.

Definition trace (E : environment) {A} (p : prog A) (s : world E)
  : list event := fst (fst (exec E p s)).

(** Kinds of events. *)
Definition is_scan (e : event) : bool :=
  match e with
  | Ev (os_listdir _) _ => true
  | _ => false
  end.

(** Reading, transforming or writing a file. *)
Definition is_file_work (e : event) : bool :=
  match e with
  | Ev (os_path_isfile _) _ => true
  | Ev (VideoFileClip _) _ => true
  | Ev (clip_crop _ _) _ => true
  | Ev (composite_on_color _ _ _ _) _ => true
  | Ev (write_videofile _ _ _ _ _) _ => true
  | _ => false
  end.

Definition is_write (e : event) : bool :=
  match e with
  | Ev (write_videofile _ _ _ _ _) _ => true
  | _ => false
  end.

Definition is_error_message (m : message) : bool :=
  match m with
  | msg_input_missing _ | msg_bad_ratio | msg_bad_method _
  | msg_file_error _ _ => true
  | _ => false
  end.

Definition is_error (e : event) : bool :=
  match e with
  | Ev (print m) _ => is_error_message m
  | _ => false
  end.

Definition printed (m : message) : event := Ev (print m) tt.

(** *** A small environment to run against *)

(** The state is the list of the directories that exist; every listed
    name is a file, every clip has the size [dims] gives for its path, and
    moviepy's calls succeed. *)
Definition sample_respond (entries : list string)
    (dims : string -> result (Z * Z)) (R : Type) (c : call R)
  : list string -> R * list string :=
  match c in call R return list string -> R * list string with
  | os_path_isdir p => fun dirs => (existsb (String.eqb p) dirs, dirs)
  | os_path_exists p => fun dirs => (existsb (String.eqb p) dirs, dirs)
  | os_makedirs p => fun dirs => (tt, p :: dirs)
  | os_listdir _ => fun dirs => (entries, dirs)
  | os_path_isfile _ => fun dirs => (true, dirs)
  | print _ => fun dirs => (tt, dirs)
  | VideoFileClip p => fun dirs =>
      (match dims p with
       | Ok wh => Ok {| handle := 0; size := wh;
                        duration := Finite 0; fps := Finite 0 |}
       | Raise e => Raise e
       end, dirs)
  | clip_crop _ _ => fun dirs => (Ok 1%nat, dirs)
  | composite_on_color _ _ _ _ => fun dirs => (Ok 1%nat, dirs)
  | write_videofile _ _ _ _ _ => fun dirs => (Ok tt, dirs)
  | clip_close _ => fun dirs => (tt, dirs)
  | new_clip_close _ => fun dirs => (tt, dirs)
  end.

Definition sample (entries : list string) (dims : string -> result (Z * Z))
  : environment :=
  {| world := list string; respond := sample_respond entries dims |}.

End Tool.

Import Python Binary64.

(** ** The statements of the specification about the computations *)

Module Stated.

(** The crop call is the rectangle the specification computes. *)
Definition crop_as_specified (width height w_ratio h_ratio : Z) : Prop :=
  exists c, Geometry.crop width height w_ratio h_ratio = Ok c
    /\ Exact.crop_matches c (Exact.crop width height w_ratio h_ratio).

(** The canvas is the one the specification computes. *)
Definition letterbox_as_specified (width height w_ratio h_ratio : Z) : Prop :=
  Geometry.letterbox width height w_ratio h_ratio
  = Ok (Exact.letterbox width height w_ratio h_ratio).

(** The dimension a crop call computes. *)
Definition cropped_dimension (c : Geometry.crop_call) : Z :=
  match c with
  | Geometry.crop_x _ width => width
  | Geometry.crop_y _ height => height
  end.

(** Every computed dimension is even. *)
Definition dimensions_even (width height w_ratio h_ratio : Z) : Prop :=
  (forall c, Geometry.crop width height w_ratio h_ratio = Ok c ->
     Z.even (cropped_dimension c) = true)
  /\ (forall final_width final_height,
        Geometry.letterbox width height w_ratio h_ratio
        = Ok (final_width, final_height) ->
        Z.even final_width = true /\ Z.even final_height = true).

(** The canvas is no smaller than the frame. *)
Definition letterbox_never_shrinks (width height w_ratio h_ratio : Z) : Prop :=
  forall final_width final_height,
    Geometry.letterbox width height w_ratio h_ratio
    = Ok (final_width, final_height) ->
    width <= final_width /\ height <= final_height.

(** The crop is no larger than the frame. *)
Definition crop_never_exceeds (width height w_ratio h_ratio : Z) : Prop :=
  forall c, Geometry.crop width height w_ratio h_ratio = Ok c ->
    match c with
    | Geometry.crop_x _ new_width => new_width <= width
    | Geometry.crop_y _ new_height => new_height <= height
    end.

End Stated.

Import Python Binary64.

(** ** The statements of the specification about a run *)

Module Run.
Import Text Tool.
Local Open Scope string_scope.

(** What the environment answers to a call, and its state afterwards. *)
Definition answer (E : environment) {R} (c : call R) (s : world E) : R :=
  fst (respond E R c s).

Definition after (E : environment) {R} (c : call R) (s : world E) : world E :=
  snd (respond E R c s).

(** "W:H" with positive integer components, as [int] reads them. *)
Definition ratio_form (target_aspect_ratio : string) : Prop :=
  exists sw sh w h,
    split ":" target_aspect_ratio = [sw; sh]
    /\ int_of_string sw = Ok w /\ int_of_string sh = Ok h
    /\ (0 < w)%Z /\ (0 < h)%Z.

(** The message of the round of a video file under an invalid method:
    the invalid-method message when the clip opens and both aspects are
    computed, and otherwise the message of the exception that opening the
    clip or computing an aspect raised. *)
Definition skip_message (conversion_method filename : string)
    (w_ratio h_ratio : Z) (opened : result clip) : message :=
  match opened with
  | Raise e => msg_file_error filename e
  | Ok c =>
      match Geometry.aspects (fst (size c)) (snd (size c)) w_ratio h_ratio with
      | Ok _ => msg_bad_method conversion_method
      | Raise e => msg_file_error filename e
      end
  end.

Definition is_close (e : event) : bool :=
  match e with
  | Ev (clip_close _) _ | Ev (new_clip_close _) _ => true
  | _ => false
  end.

(** The events of one round of the loop for a file that is skipped: the
    [isfile] test and, for a video file, the opening of the clip, the one
    message of [skip_message], and then only [close] calls; nothing is
    written. *)
Definition file_skipped (folder_path conversion_method : string)
    (w_ratio h_ratio : Z) (filename : string) (segment : list event) : Prop :=
  exists (isfile : bool) rest,
    segment = Ev (os_path_isfile (path_join folder_path filename)) isfile :: rest
    /\ Forall (fun e => is_write e = false) rest
    /\ if isfile && is_video_name filename
       then exists opened behind,
              rest = Ev (VideoFileClip (path_join folder_path filename)) opened
                       :: printed (skip_message conversion_method filename
                                     w_ratio h_ratio opened)
                       :: behind
              /\ Forall (fun e => is_close e = true) behind
       else rest = [].

(** What a [composite_on_color] call must carry: the canvas computed from
    the size of its clip, black, centred. *)
Definition composite_as_computed (w_ratio h_ratio : Z) (e : event) : Prop :=
  match e with
  | Ev (composite_on_color c canvas color pos) _ =>
      Geometry.letterbox (fst (size c)) (snd (size c)) w_ratio h_ratio = Ok canvas
      /\ color = (0, 0, 0)%Z /\ pos = "center"
  | _ => True
  end.

End Run.

Module Calls.
Import Text Tool.
Local Open Scope string_scope.

(** The name of the file written for [filename]. *)
Definition new_file_path (output_path output_suffix filename : string) : string :=
  path_join output_path
    (fst (splitext filename) ++ output_suffix ++ snd (splitext filename)).

(** What the calls of the round for [filename] carry. *)
Definition call_as_computed
    (folder_path output_path conversion_method output_suffix : string)
    (w_ratio h_ratio : Z) (filename : string) (e : event) : Prop :=
  match e with
  | Ev (os_path_isfile p) _ => p = path_join folder_path filename
  | Ev (VideoFileClip p) _ =>
      p = path_join folder_path filename /\ is_video_name filename = true
  | Ev (clip_crop c args) _ =>
      conversion_method = "crop"
      /\ Geometry.crop (fst (size c)) (snd (size c)) w_ratio h_ratio = Ok args
  | Ev (composite_on_color c canvas color pos) _ =>
      conversion_method = "letterbox"
      /\ Geometry.letterbox (fst (size c)) (snd (size c)) w_ratio h_ratio
         = Ok canvas
      /\ color = (0, 0, 0)%Z /\ pos = "center"
  | Ev (write_videofile _ path codec preset _) _ =>
      path = new_file_path output_path output_suffix filename
      /\ codec = "mpeg4" /\ preset = "medium"
      /\ is_video_name filename = true
      /\ (conversion_method = "crop" \/ conversion_method = "letterbox")
  | Ev (os_listdir _) _ => False
  | Ev (os_makedirs _) _ => False
  | Ev (os_path_isdir _) _ => False
  | Ev (os_path_exists _) _ => False
  | _ => True
  end.

(** The calls made before the loop. *)
Definition is_setup (e : event) : bool :=
  match e with
  | Ev (os_path_isdir _) _ | Ev (os_path_exists _) _ | Ev (os_makedirs _) _
  | Ev (os_listdir _) _ | Ev (print _) _ => true
  | _ => false
  end.

End Calls.

Import Python Binary64.

(** ** Observations on a trace *)

Module Observe.
Import Text Tool.
Local Open Scope string_scope.

(** The paths tested with [os.path.isfile], in order. *)
Fixpoint isfile_paths (tr : list event) : list string :=
  match tr with
  | [] => []
  | Ev (os_path_isfile p) _ :: rest => p :: isfile_paths rest
  | _ :: rest => isfile_paths rest
  end.

(** What must follow an event: the [close] of the clip it opened or of the
    transformed clip it created. *)
Definition owes (e : event) (rest : list event) : Prop :=
  match e with
  | Ev c r =>
      match c in call R return R -> Prop with
      | VideoFileClip _ => fun r =>
          match r with
          | Ok opened => In (Ev (clip_close opened) tt) rest
          | Raise _ => True
          end
      | clip_crop _ _ => fun r =>
          match r with
          | Ok nc => In (Ev (new_clip_close nc) tt) rest
          | Raise _ => True
          end
      | composite_on_color _ _ _ _ => fun r =>
          match r with
          | Ok nc => In (Ev (new_clip_close nc) tt) rest
          | Raise _ => True
          end
      | _ => fun _ => True
      end r
  end.

(** Every clip opened or created is closed later in the trace. *)
Fixpoint closes_follow (tr : list event) : Prop :=
  match tr with
  | [] => True
  | e :: rest => owes e rest /\ closes_follow rest
  end.

(** The value of a string of decimal digits. *)
Fixpoint decimal_value (s : string) (acc : Z) : Z :=
  match s with
  | EmptyString => acc
  | String c s' => decimal_value s' (10 * acc + digit_value c)
  end.

Fixpoint all_digits (s : string) : bool :=
  match s with
  | EmptyString => true
  | String c s' => is_digit c && all_digits s'
  end.

(** The number of occurrences of a character. *)
Fixpoint count (c : ascii) (s : string) : nat :=
  match s with
  | EmptyString => 0
  | String c' s' => (if Ascii.eqb c' c then 1 else 0) + count c s'
  end.

(** What a [makedirs] call must be: of the output path, in a run with
    moviepy where the input folder exists and the output path does not. *)
Definition makedirs_needed (E : environment) (s : world E)
    (MOVIEPY_INSTALLED : bool) (folder_path output_path : string)
    (e : event) : Prop :=
  match e with
  | Ev (os_makedirs p) _ =>
      p = output_path /\ MOVIEPY_INSTALLED = true
      /\ Run.answer E (os_path_isdir folder_path) s = true
      /\ Run.answer E (os_path_exists output_path)
           (Run.after E (os_path_isdir folder_path) s) = false
  | _ => True
  end.

(** A clip of the usual size, to run the samples on. *)
Definition sample_clip : clip :=
  {| handle := 0; size := (1920, 1080)%Z; duration := Finite 0; fps := Finite 0 |}.

End Observe.

(** ** Reference floats *)

Module Reference.

(** An int as an (unnormalised) Stdlib [spec_float]. *)
Definition raw (n : positive) : SpecFloat.spec_float :=
  SpecFloat.S754_finite false n 0.

End Reference.

Import Python Binary64.

Module Binary64Facts.

Lemma round_half_even_le num den M :
  0 < den -> num <= M * den -> round_half_even num den <= M.
Proof.
  intros Hd H. unfold round_half_even.
  pose proof (Z.div_mod num den ltac:(lia)) as E.
  pose proof (Z.mod_pos_bound num den Hd) as B.
  destruct ((den <? 2 * (num mod den)) || ((den =? 2 * (num mod den)) && Z.odd (num / den))) eqn:T.
  - assert (0 < num mod den).
    { apply orb_true_iff in T. destruct T as [T|T].
      - apply Z.ltb_lt in T. lia.
      - apply andb_true_iff in T. destruct T as [T _]. apply Z.eqb_eq in T. lia. }
    nia.
  - nia.
Qed.

Lemma round_half_even_ge num den M :
  0 < den -> M * den <= num -> M <= round_half_even num den.
Proof.
  intros Hd H. unfold round_half_even.
  pose proof (Z.div_mod num den ltac:(lia)) as E.
  pose proof (Z.mod_pos_bound num den Hd) as B.
  destruct ((den <? 2 * (num mod den)) || ((den =? 2 * (num mod den)) && Z.odd (num / den))); nia.
Qed.

Lemma ulp_shift_nonneg x d : 0 <= ulp_shift x d.
Proof. unfold ulp_shift. lia. Qed.

(** Above the subnormal range the quotient has a full significand. *)
Lemma ulp_shift_normal x d :
  0 < d -> 0 < ulp_shift x d -> 2 ^ 52 * (d * 2 ^ ulp_shift x d) <= x.
Proof.
  intros Hd Hs. unfold ulp_shift in *.
  assert (L : 52 < Z.log2 (x / d)) by lia.
  assert (Q : 0 < x / d).
  { destruct (Z.lt_trichotomy (x / d) 0) as [N|[N|N]]; try lia.
    - rewrite Z.log2_nonpos in L; lia.
    - rewrite N in L. cbn in L. lia. }
  replace (Z.max 0 (Z.log2 (x / d) - 52)) with (Z.log2 (x / d) - 52) by lia.
  pose proof (Z.log2_spec (x / d) Q) as [S1 _].
  pose proof (Z.mul_div_le x d Hd) as D.
  replace (2 ^ 52 * (d * 2 ^ (Z.log2 (x / d) - 52)))
    with (d * (2 ^ 52 * 2 ^ (Z.log2 (x / d) - 52))) by ring.
  rewrite <- Z.pow_add_r by lia.
  replace (52 + (Z.log2 (x / d) - 52)) with (Z.log2 (x / d)) by lia.
  nia.
Qed.

(** The quotient never needs more than 53 bits after the shift. *)
Lemma ulp_shift_fits x d :
  0 < d -> 0 <= x -> x < 2 ^ 53 * (d * 2 ^ ulp_shift x d).
Proof.
  intros Hd Hx. unfold ulp_shift.
  pose proof (Z.mul_succ_div_gt x d Hd) as D.
  assert (Q : 0 <= x / d) by (apply Z.div_pos; lia).
  assert (B : x / d < 2 ^ (53 + Z.max 0 (Z.log2 (x / d) - 52))).
  { destruct (Z.eq_dec (x / d) 0) as [Z0|NZ].
    - rewrite Z0. apply Z.pow_pos_nonneg; lia.
    - pose proof (Z.log2_spec (x / d) ltac:(lia)) as [_ S2].
      eapply Z.lt_le_trans; [exact S2|].
      apply Z.pow_le_mono_r; lia. }
  rewrite Z.pow_add_r in B by lia.
  nia.
Qed.

(** A representable number is either a multiple of the spacing or no
    larger than the smallest full significand. *)
Lemma representable_cases F sh :
  representable F -> 0 <= sh ->
  (exists M, F = M * 2 ^ sh /\ 0 <= M) \/ (0 < sh /\ 0 <= F <= 2 ^ 52 * 2 ^ sh).
Proof.
  intros (m & k & E & Hm & Hk & _) Hs.
  destruct (Z_le_gt_dec sh k) as [L|G].
  - left. exists (m * 2 ^ (k - sh)). split.
    + rewrite <- Z.mul_assoc, <- Z.pow_add_r by lia.
      replace (k - sh + sh) with k by lia. exact E.
    + apply Z.mul_nonneg_nonneg; [lia|]. apply Z.pow_nonneg. lia.
  - right. split; [lia|]. subst F.
    assert (P : 0 < 2 ^ k) by (apply Z.pow_pos_nonneg; lia).
    split; [nia|].
    assert (2 ^ (k + 1) <= 2 ^ sh) by (apply Z.pow_le_mono_r; lia).
    rewrite Z.pow_add_r in H by lia.
    change (2 ^ 53) with (2 ^ 52 * 2) in Hm. change (2 ^ 1) with 2 in H.
    assert (0 < 2 ^ 52) by (apply Z.pow_pos_nonneg; lia).
    nia.
Qed.

(** Rounding never passes a representable number: from above. *)
Lemma round_pos_le n d F :
  0 <= n -> 0 < d -> representable F -> n * 2 ^ 1074 <= F * d ->
  exists u, round_pos n d = Finite u /\ 0 <= u <= F.
Proof.
  intros Hn Hd HF H. unfold round_pos.
  set (x := n * 2 ^ 1074) in *.
  assert (Hx : 0 <= x) by (apply Z.mul_nonneg_nonneg; [lia|apply Z.pow_nonneg; lia]).
  set (sh := ulp_shift x d).
  assert (Hs : 0 <= sh) by apply ulp_shift_nonneg.
  assert (P : 0 < 2 ^ sh) by (apply Z.pow_pos_nonneg; lia).
  assert (Y : 0 < d * 2 ^ sh) by nia.
  set (m := round_half_even x (d * 2 ^ sh)).
  assert (M0 : 0 <= m).
  { apply round_half_even_ge; [exact Y|]. lia. }
  assert (B : m * 2 ^ sh <= F).
  { destruct (representable_cases F sh HF Hs) as [(M & E & HM)|(S0 & F0 & F1)].
    - assert (m <= M).
      { apply round_half_even_le; [exact Y|]. subst F. nia. }
      subst F. nia.
    - pose proof (ulp_shift_normal x d Hd S0) as N. fold sh in N.
      assert (m <= 2 ^ 52).
      { apply round_half_even_le; [exact Y|]. nia. }
      assert (0 < 2 ^ 52) by (apply Z.pow_pos_nonneg; lia).
      nia. }
  destruct HF as (_ & _ & _ & _ & _ & HF).
  destruct (2 ^ 2098 <=? m * 2 ^ sh) eqn:T.
  - apply Z.leb_le in T. lia.
  - exists (m * 2 ^ sh). split; [reflexivity|]. nia.
Qed.

(** Rounding never passes a representable number: from below. *)
Lemma round_pos_ge n d F :
  0 <= n -> 0 < d -> representable F -> F * d <= n * 2 ^ 1074 ->
  match round_pos n d with
  | Finite u => F <= u
  | Infinity s => s = false
  end.
Proof.
  intros Hn Hd HF H. unfold round_pos.
  set (x := n * 2 ^ 1074) in *.
  assert (Hx : 0 <= x) by (apply Z.mul_nonneg_nonneg; [lia|apply Z.pow_nonneg; lia]).
  set (sh := ulp_shift x d).
  assert (Hs : 0 <= sh) by apply ulp_shift_nonneg.
  assert (P : 0 < 2 ^ sh) by (apply Z.pow_pos_nonneg; lia).
  assert (Y : 0 < d * 2 ^ sh) by nia.
  set (m := round_half_even x (d * 2 ^ sh)).
  destruct (2 ^ 2098 <=? m * 2 ^ sh); [reflexivity|].
  destruct (representable_cases F sh HF Hs) as [(M & E & HM)|(S0 & F0 & F1)].
  - assert (M <= m).
    { apply round_half_even_ge; [exact Y|]. subst F. nia. }
    subst F. nia.
  - pose proof (ulp_shift_normal x d Hd S0) as N. fold sh in N.
    assert (2 ^ 52 <= m).
    { apply round_half_even_ge; [exact Y|]. nia. }
    nia.
Qed.

(** What rounding returns is a double. *)
Lemma round_pos_representable n d u :
  0 <= n -> 0 < d -> round_pos n d = Finite u -> representable u /\ 0 <= u.
Proof.
  intros Hn Hd. unfold round_pos.
  set (x := n * 2 ^ 1074) in *.
  assert (Hx : 0 <= x) by (apply Z.mul_nonneg_nonneg; [lia|apply Z.pow_nonneg; lia]).
  set (sh := ulp_shift x d).
  assert (Hs : 0 <= sh) by apply ulp_shift_nonneg.
  assert (P : 0 < 2 ^ sh) by (apply Z.pow_pos_nonneg; lia).
  assert (Y : 0 < d * 2 ^ sh) by nia.
  set (m := round_half_even x (d * 2 ^ sh)).
  destruct (2 ^ 2098 <=? m * 2 ^ sh) eqn:T; [discriminate|].
  intros E. injection E as <-. apply Z.leb_gt in T.
  assert (M0 : 0 <= m) by (apply round_half_even_ge; [exact Y|lia]).
  assert (M1 : m <= 2 ^ 53).
  { apply round_half_even_le; [exact Y|].
    pose proof (ulp_shift_fits x d Hd Hx). fold sh in H. lia. }
  split; [|nia].
  exists m, sh. repeat split; try lia.
Qed.

End Binary64Facts.

Import Python Binary64 Binary64Facts.

Module OpsFacts.

Lemma round_nonneg n d : 0 <= n -> 0 < d -> round n d = round_pos n d.
Proof.
  intros Hn Hd. unfold round.
  destruct (d <? 0) eqn:D; [apply Z.ltb_lt in D; lia|].
  destruct (n <? 0) eqn:N; [apply Z.ltb_lt in N; lia|].
  rewrite Z.abs_eq by lia. reflexivity.
Qed.

(** A quotient that is itself a double is returned as it is. *)
Lemma round_pos_exact n d F :
  0 <= n -> 0 < d -> representable F -> F * d = n * 2 ^ 1074 ->
  round_pos n d = Finite F.
Proof.
  intros Hn Hd HF E.
  destruct (round_pos_le n d F Hn Hd HF ltac:(lia)) as (u & R & U).
  pose proof (round_pos_ge n d F Hn Hd HF ltac:(lia)) as G.
  rewrite R in *. f_equal. lia.
Qed.

Lemma representable_int n : 0 <= n <= 2 ^ 53 -> representable (n * 2 ^ 1074).
Proof.
  intros H. exists n, 1074. repeat split; lia.
Qed.

Lemma representable_half n : 0 <= n <= 2 ^ 53 -> representable (n * 2 ^ 1073).
Proof.
  intros H. exists n, 1073. repeat split; lia.
Qed.

(** Ints up to 2^53 convert exactly. *)
Lemma float_of_int_exact n :
  0 <= n <= 2 ^ 53 -> float_of_int n = Ok (Finite (n * 2 ^ 1074)).
Proof.
  intros H. unfold float_of_int. rewrite round_nonneg by lia.
  rewrite (round_pos_exact n 1 (n * 2 ^ 1074) ltac:(lia) ltac:(lia)
             (representable_int n H) ltac:(lia)).
  reflexivity.
Qed.

(** Half of an int up to 2^53 is exact. *)
Lemma int_truediv_two n :
  0 <= n <= 2 ^ 53 -> int_truediv n 2 = Ok (Finite (n * 2 ^ 1073)).
Proof.
  intros H. unfold int_truediv. cbn [Z.eqb]. rewrite round_nonneg by lia.
  assert (E : n * 2 ^ 1073 * 2 = n * 2 ^ 1074)
    by (change (2 ^ 1074) with (2 ^ 1073 * 2); ring).
  rewrite (round_pos_exact n 2 (n * 2 ^ 1073) ltac:(lia) ltac:(lia)
             (representable_half n H) E).
  reflexivity.
Qed.

(** The quotient of two positive ints is a non-negative double or an
    overflow. *)
Lemma int_truediv_pos a b :
  0 <= a -> 0 < b ->
  (exists u, int_truediv a b = Ok (Finite u) /\ round_pos a b = Finite u
             /\ representable u /\ 0 <= u)
  \/ int_truediv a b = Raise OverflowError.
Proof.
  intros Ha Hb. unfold int_truediv.
  destruct (b =? 0) eqn:B; [apply Z.eqb_eq in B; lia|].
  rewrite round_nonneg by lia.
  destruct (round_pos a b) as [u|s] eqn:R.
  - left. exists u. destruct (round_pos_representable a b u Ha Hb R). auto.
  - right. reflexivity.
Qed.

Lemma ulp_shift_pos x d : 0 < d -> 2 ^ 53 * d <= x -> 0 < ulp_shift x d.
Proof.
  intros Hd H. unfold ulp_shift.
  assert (2 ^ 53 <= x / d) by (apply Z.div_le_lower_bound; lia).
  assert (53 <= Z.log2 (x / d)).
  { change 53 with (Z.log2 (2 ^ 53)). apply Z.log2_le_mono. exact H0. }
  lia.
Qed.

(** In the normal range rounding loses less than one part in 2^52. *)
Lemma round_pos_relative n d u :
  0 <= n -> 0 < d -> 2 ^ 53 * d <= n * 2 ^ 1074 ->
  round_pos n d = Finite u ->
  n * 2 ^ 1074 * (2 ^ 52 - 1) < u * d * 2 ^ 52.
Proof.
  intros Hn Hd Hbig. unfold round_pos.
  set (x := n * 2 ^ 1074) in *.
  pose proof (ulp_shift_pos x d Hd Hbig) as S0.
  pose proof (ulp_shift_normal x d Hd S0) as N.
  set (sh := ulp_shift x d) in *.
  assert (P : 0 < 2 ^ sh) by (apply Z.pow_pos_nonneg; lia).
  assert (Y : 0 < d * 2 ^ sh) by nia.
  set (m := round_half_even x (d * 2 ^ sh)).
  destruct (2 ^ 2098 <=? m * 2 ^ sh); [discriminate|].
  intros E. injection E as <-.
  assert (Q : x / (d * 2 ^ sh) <= m).
  { apply round_half_even_ge; [exact Y|].
    pose proof (Z.mul_div_le x (d * 2 ^ sh) Y). lia. }
  pose proof (Z.mul_succ_div_gt x (d * 2 ^ sh) Y) as G.
  set (q := x / (d * 2 ^ sh)) in *.
  set (Yv := d * 2 ^ sh) in *.
  assert (x - Yv < m * Yv) by nia.
  replace (m * 2 ^ sh * d) with (m * Yv) by (unfold Yv; ring).
  set (c := 2 ^ 52) in *.
  assert (0 < c) by (unfold c; apply Z.pow_pos_nonneg; lia).
  nia.
Qed.

Lemma quot_ulps_le u n : 0 <= u -> u < (n + 1) * 2 ^ 1074 -> Z.quot u (2 ^ 1074) <= n.
Proof.
  intros Hu H. rewrite Z.quot_div_nonneg by lia.
  assert (u / 2 ^ 1074 < n + 1) by (apply Z.div_lt_upper_bound; lia). lia.
Qed.

Lemma quot_ulps_ge u n : 0 <= n -> n * 2 ^ 1074 <= u -> n <= Z.quot u (2 ^ 1074).
Proof.
  intros Hn H. rewrite Z.quot_div_nonneg by nia.
  apply Z.div_le_lower_bound; lia.
Qed.

Lemma make_even_even n : Z.even (Geometry.make_even n) = true.
Proof.
  unfold Geometry.make_even. destruct (n mod 2 =? 0) eqn:E.
  - rewrite Zeven_mod. exact E.
  - rewrite Z.even_sub, Zeven_mod, E. reflexivity.
Qed.

Lemma make_even_bounds n : n - 1 <= Geometry.make_even n <= n.
Proof. unfold Geometry.make_even. destruct (n mod 2 =? 0); lia. Qed.

Lemma make_even_nonneg n : 0 <= n -> 0 <= Geometry.make_even n.
Proof.
  unfold Geometry.make_even. intros H. destruct (n mod 2 =? 0) eqn:E; [lia|].
  apply Z.eqb_neq in E. assert (n <> 0) by (intros ->; apply E; reflexivity). lia.
Qed.

Lemma make_even_decrement n : Geometry.make_even n = Exact.decrement_if_odd n.
Proof.
  unfold Geometry.make_even, Exact.decrement_if_odd.
  rewrite Zodd_mod. pose proof (Z.mod_pos_bound n 2 ltac:(lia)).
  destruct (n mod 2 =? 0) eqn:E.
  - apply Z.eqb_eq in E. rewrite E. reflexivity.
  - apply Z.eqb_neq in E. replace (n mod 2) with 1 by lia. reflexivity.
Qed.

End OpsFacts.

Import Python Binary64 Binary64Facts OpsFacts.

Module GeometryFacts.
Import Geometry.

Lemma Ok_inj {A} (a b : A) : Ok a = Ok b -> a = b.
Proof. congruence. Qed.

Lemma aspects_pos w h wr hr a t :
  0 < w -> 0 < h -> 0 < wr -> 0 < hr ->
  aspects w h wr hr = Ok (a, t) ->
  exists A T, a = Finite A /\ t = Finite T
    /\ round_pos w h = Finite A /\ round_pos wr hr = Finite T
    /\ representable A /\ representable T /\ 0 <= A /\ 0 <= T.
Proof.
  intros Hw Hh Hwr Hhr. unfold aspects.
  destruct (int_truediv_pos w h ltac:(lia) Hh) as [(A & -> & RA & PA & A0)| ->];
    [|discriminate].
  destruct (int_truediv_pos wr hr ltac:(lia) Hhr) as [(T & -> & RT & PT & T0)| ->];
    [|discriminate].
  cbn. intros E. injection E as <- <-. exists A, T. auto 10.
Qed.

(** A quotient that rounds above a double lies above it. *)
Lemma rounds_above w h A T :
  0 < w -> 0 < h -> round_pos w h = Finite A -> representable T ->
  T < A -> T * h < w * 2 ^ 1074.
Proof.
  intros Hw Hh RA PT L.
  destruct (Z_lt_le_dec (T * h) (w * 2 ^ 1074)) as [?|G]; [assumption|].
  destruct (round_pos_le w h T ltac:(lia) Hh PT G) as (u & R & U).
  rewrite RA in R. injection R as ->. lia.
Qed.

Lemma int_mul_float_pos n T :
  0 <= n <= 2 ^ 53 -> 0 <= T ->
  int_mul_float n (Finite T) = Ok (round_pos (n * 2 ^ 1074 * T) (2 ^ 2148)).
Proof.
  intros Hn HT. unfold int_mul_float. rewrite float_of_int_exact by assumption.
  cbn [Python.bind float_mul]. rewrite round_nonneg; [reflexivity| |lia].
  apply Z.mul_nonneg_nonneg; lia.
Qed.

Lemma int_div_float_pos n T :
  0 <= n <= 2 ^ 53 -> 0 < T ->
  int_div_float n (Finite T) = Ok (round_pos (n * 2 ^ 1074) T).
Proof.
  intros Hn HT. unfold int_div_float. rewrite float_of_int_exact by assumption.
  cbn [Python.bind]. unfold float_div. destruct T; try lia.
  rewrite round_nonneg by lia. reflexivity.
Qed.

Lemma int_div_float_zero n :
  0 <= n <= 2 ^ 53 -> int_div_float n (Finite 0) = Raise ZeroDivisionError.
Proof.
  intros Hn. unfold int_div_float. rewrite float_of_int_exact by assumption.
  reflexivity.
Qed.

Lemma pow_2148 : 2 ^ 2148 = 2 ^ 1074 * 2 ^ 1074.
Proof. rewrite <- Z.pow_add_r by lia. reflexivity. Qed.

(** The product [h * t] stays at or below any int that bounds it. *)
Lemma mul_le_int h T w p :
  0 <= h <= 2 ^ 53 -> 0 <= T -> 0 <= w <= 2 ^ 53 ->
  h * T <= w * 2 ^ 1074 ->
  int_mul_float h (Finite T) = Ok p ->
  exists n, int_of_float p = Ok n /\ 0 <= n <= w.
Proof.
  intros Hh HT Hw B. rewrite int_mul_float_pos by assumption.
  intros E. apply Ok_inj in E. subst p.
  destruct (round_pos_le (h * 2 ^ 1074 * T) (2 ^ 2148) (w * 2 ^ 1074))
    as (u & R & U).
  - apply Z.mul_nonneg_nonneg; lia.
  - lia.
  - apply representable_int, Hw.
  - rewrite pow_2148. set (c := 2 ^ 1074) in *. assert (0 < c) by (unfold c; lia). nia.
  - rewrite R. exists (Z.quot u (2 ^ 1074)). split; [reflexivity|]. split.
    + apply Z.quot_pos; lia.
    + apply quot_ulps_le; lia.
Qed.

Lemma mul_ge_int h T w p n :
  0 <= h <= 2 ^ 53 -> 0 <= T -> 0 <= w <= 2 ^ 53 ->
  w * 2 ^ 1074 <= h * T ->
  int_mul_float h (Finite T) = Ok p -> int_of_float p = Ok n -> w <= n.
Proof.
  intros Hh HT Hw B. rewrite int_mul_float_pos by assumption.
  intros E. apply Ok_inj in E. subst p.
  pose proof (round_pos_ge (h * 2 ^ 1074 * T) (2 ^ 2148) (w * 2 ^ 1074)) as G.
  destruct (round_pos (h * 2 ^ 1074 * T) (2 ^ 2148)) as [u|s]; [|discriminate].
  unfold int_of_float. intros E. apply Ok_inj in E. subst n.
  apply quot_ulps_ge; [lia|]. apply G.
  - apply Z.mul_nonneg_nonneg; lia.
  - lia.
  - apply representable_int, Hw.
  - rewrite pow_2148. set (c := 2 ^ 1074) in *. assert (0 < c) by (unfold c; lia). nia.
Qed.

Lemma div_ge_int w T h p n :
  0 <= w <= 2 ^ 53 -> 0 <= T -> 0 <= h <= 2 ^ 53 ->
  h * T <= w * 2 ^ 1074 ->
  int_div_float w (Finite T) = Ok p -> int_of_float p = Ok n -> h <= n.
Proof.
  intros Hw HT Hh B.
  destruct (Z.eq_dec T 0) as [->|NZ]; [rewrite int_div_float_zero by assumption; discriminate|].
  rewrite int_div_float_pos by (try assumption; lia).
  intros E. apply Ok_inj in E. subst p.
  pose proof (round_pos_ge (w * 2 ^ 1074) T (h * 2 ^ 1074)) as G.
  destruct (round_pos (w * 2 ^ 1074) T) as [u|s]; [|discriminate].
  unfold int_of_float. intros E. apply Ok_inj in E. subst n.
  apply quot_ulps_ge; [lia|]. apply G.
  - lia.
  - lia.
  - apply representable_int, Hh.
  - set (c := 2 ^ 1074) in *. assert (0 < c) by (unfold c; lia). nia.
Qed.

(** [w / t] stays below [h + 1] when twice [w] is at most [(2h + 1) t]. *)
Lemma div_le_int w T h p :
  0 <= w <= 2 ^ 53 -> 0 < T -> 0 <= h < 2 ^ 52 ->
  2 * (w * 2 ^ 1074) <= (2 * h + 1) * T ->
  int_div_float w (Finite T) = Ok p ->
  exists n, int_of_float p = Ok n /\ 0 <= n <= h.
Proof.
  intros Hw HT Hh B. rewrite int_div_float_pos by assumption.
  intros E. apply Ok_inj in E. subst p.
  destruct (round_pos_le (w * 2 ^ 1074) T ((2 * h + 1) * 2 ^ 1073))
    as (u & R & U).
  - lia.
  - lia.
  - apply representable_half. lia.
  - change (2 ^ 1074) with (2 ^ 1073 * 2) in *.
    set (c := 2 ^ 1073) in *. assert (0 < c) by (unfold c; lia). nia.
  - rewrite R. exists (Z.quot u (2 ^ 1074)). split; [reflexivity|]. split.
    + apply Z.quot_pos; lia.
    + apply quot_ulps_le; [lia|].
      change (2 ^ 1074) with (2 ^ 1073 * 2).
      set (c := 2 ^ 1073) in *. assert (0 < c) by (unfold c; lia). nia.
Qed.

(** The double of [w / h] keeps [w / h] within one part in 2^52. *)
Lemma aspect_relative w h A :
  0 < w -> 0 < h < 2 ^ 52 -> round_pos w h = Finite A ->
  w * 2 ^ 1074 * (2 ^ 52 - 1) < A * h * 2 ^ 52.
Proof.
  intros Hw Hh R.
  assert (2 ^ 53 * h <= w * 2 ^ 1074).
  { apply Z.le_trans with (2 ^ 53 * 2 ^ 52); [nia|].
    apply Z.le_trans with (1 * 2 ^ 1074); [lia|nia]. }
  apply round_pos_relative; try assumption; lia.
Qed.

End GeometryFacts.

Import Python Binary64 Binary64Facts OpsFacts GeometryFacts Stated.

(** ** The bounds of the computed dimensions *)

(** C5 (amended): for source dimensions below 2^51 and any positive target
    ratio, whenever the crop computation returns, the dimension it computes
    lies between 0 and the original one: [new_width <= width] when it crops
    horizontally, [new_height <= height] when it crops vertically. The other
    dimension is not passed to [clip.crop], which keeps it. *)
Theorem crop_within_original (width height w_ratio h_ratio : Z) :
  0 < width < 2 ^ 51 -> 0 < height < 2 ^ 51 -> 0 < w_ratio -> 0 < h_ratio ->
  forall c, Geometry.crop width height w_ratio h_ratio = Ok c ->
    match c with
    | Geometry.crop_x _ new_width => 0 <= new_width <= width
    | Geometry.crop_y _ new_height => 0 <= new_height <= height
    end.
Proof.
  intros Hw Hh Hwr Hhr c. unfold Geometry.crop.
  destruct (Geometry.aspects width height w_ratio h_ratio) as [[a t]|e] eqn:EA;
    [|discriminate].
  destruct (aspects_pos width height w_ratio h_ratio a t ltac:(lia) ltac:(lia) Hwr Hhr EA)
    as (A & T & -> & -> & RA & RT & PA & PT & A0 & T0).
  cbn [Python.bind fst snd]. unfold Geometry.crop_branch, float_gt. cbv zeta.
  assert (B53 : 2 ^ 51 < 2 ^ 53) by lia.
  destruct (T <? A) eqn:G.
  - apply Z.ltb_lt in G.
    pose proof (rounds_above width height A T ltac:(lia) ltac:(lia) RA PT G) as X.
    destruct (int_mul_float height (Finite T)) as [p|e] eqn:EM; cbn [Python.bind]; [|discriminate].
    destruct (mul_le_int height T width p ltac:(lia) T0 ltac:(lia) ltac:(lia) EM)
      as (n & -> & N).
    cbn [Python.bind].
    destruct (int_truediv width 2); cbn [Python.bind]; [|discriminate]. intros E. apply Ok_inj in E. subst c.
    pose proof (make_even_bounds n). pose proof (make_even_nonneg n). lia.
  - apply Z.ltb_ge in G.
    destruct (int_div_float width (Finite T)) as [p|e] eqn:ED; cbn [Python.bind]; [|discriminate].
    assert (T <> 0).
    { intros ->. rewrite int_div_float_zero in ED by lia. discriminate. }
    pose proof (aspect_relative width height A ltac:(lia) ltac:(lia) RA) as R.
    destruct (div_le_int width T height p ltac:(lia) ltac:(lia) ltac:(lia)) as (n & -> & N).
    + set (c52 := 2 ^ 52) in *. set (x := width * 2 ^ 1074) in *.
      assert (0 < x) by (unfold x; lia).
      assert (2 * height + 1 <= c52) by (unfold c52; lia).
      assert (0 < c52) by (unfold c52; lia).
      assert (x * (c52 - 1) < T * height * c52) by nia.
      assert (2 * x * (height * c52) <= (2 * height + 1) * T * (height * c52)); [|nia].
      nia.
    + exact ED.
    + cbn [Python.bind].
      destruct (int_truediv height 2); cbn [Python.bind]; [|discriminate]. intros E. apply Ok_inj in E. subst c.
      pose proof (make_even_bounds n). pose proof (make_even_nonneg n). lia.
Qed.

(** C4 (amended): for source dimensions below 2^51 and any positive target
    ratio, whenever the letterbox computation returns, one dimension of the
    canvas is the original one and the other is at least the original minus
    2; when the padding is vertical it is at least the original height minus
    1, and at least the original height when that height is even. *)
Theorem letterbox_at_least (width height w_ratio h_ratio : Z) :
  0 < width < 2 ^ 51 -> 0 < height < 2 ^ 51 -> 0 < w_ratio -> 0 < h_ratio ->
  forall final_width final_height,
    Geometry.letterbox width height w_ratio h_ratio
    = Ok (final_width, final_height) ->
    (final_width = width /\ height - 1 <= final_height
     /\ (Z.even height = true -> height <= final_height))
    \/ (final_height = height /\ width - 2 <= final_width).
Proof.
  intros Hw Hh Hwr Hhr fw fh. unfold Geometry.letterbox.
  destruct (Geometry.aspects width height w_ratio h_ratio) as [[a t]|e] eqn:EA;
    [|discriminate].
  destruct (aspects_pos width height w_ratio h_ratio a t ltac:(lia) ltac:(lia) Hwr Hhr EA)
    as (A & T & -> & -> & RA & RT & PA & PT & A0 & T0).
  cbn [Python.bind fst snd]. unfold Geometry.letterbox_branch, float_gt. cbv zeta.
  assert (B53 : 2 ^ 51 < 2 ^ 53) by lia.
  destruct (T <? A) eqn:G.
  - apply Z.ltb_lt in G.
    pose proof (rounds_above width height A T ltac:(lia) ltac:(lia) RA PT G) as X.
    destruct (int_div_float width (Finite T)) as [p|e] eqn:ED; cbn [Python.bind]; [|discriminate].
    destruct (int_of_float p) as [n|e] eqn:EI; cbn [Python.bind]; [|discriminate]. cbv zeta. intros E. apply Ok_inj in E. injection E as <- <-.
    pose proof (div_ge_int width T height p n ltac:(lia) T0 ltac:(lia) ltac:(lia) ED EI) as N.
    pose proof (make_even_bounds n) as MB. pose proof (make_even_even n) as ME.
    left. split; [reflexivity|]. split; [lia|]. intros EH.
    destruct (Z.eq_dec (Geometry.make_even n) (height - 1)) as [Q|Q]; [|lia].
    rewrite Q, Z.even_sub, EH in ME. discriminate.
  - apply Z.ltb_ge in G.
    destruct (int_mul_float height (Finite T)) as [p|e] eqn:EM; cbn [Python.bind]; [|discriminate].
    destruct (int_of_float p) as [n|e] eqn:EI; cbn [Python.bind]; [|discriminate]. cbv zeta. intros E. apply Ok_inj in E. injection E as <- <-.
    pose proof (aspect_relative width height A ltac:(lia) ltac:(lia) RA) as R.
    assert (N : width - 1 <= n).
    { apply (mul_ge_int height T (width - 1) p n); try assumption; try lia.
      set (c52 := 2 ^ 52) in *. set (c := 2 ^ 1074) in *.
      assert (0 < c) by (unfold c; lia).
      assert (width < c52) by (unfold c52; lia).
      assert (0 < c52) by (unfold c52; lia).
      assert (width * c * (c52 - 1) < height * T * c52) by nia.
      assert ((width - 1) * c * c52 <= width * c * (c52 - 1)) by nia.
      nia. }
    pose proof (make_even_bounds n). right. split; [reflexivity|lia].
Qed.

(** C3 (amended): every dimension the computation recomputes is even
    ([new_width] or [new_height] of a crop, the recomputed side of a
    letterbox canvas); the other side of the canvas is the original
    dimension, whatever its parity. *)
Theorem computed_dimension_even (width height w_ratio h_ratio : Z) :
  (forall c, Geometry.crop width height w_ratio h_ratio = Ok c ->
     Z.even (cropped_dimension c) = true)
  /\ (forall final_width final_height,
        Geometry.letterbox width height w_ratio h_ratio
        = Ok (final_width, final_height) ->
        (final_width = width /\ Z.even final_height = true)
        \/ (final_height = height /\ Z.even final_width = true)).
Proof.
  split.
  - intros c. unfold Geometry.crop.
    destruct (Geometry.aspects width height w_ratio h_ratio) as [[a t]|e];
      [|discriminate].
    cbn [Python.bind fst snd]. unfold Geometry.crop_branch. cbv zeta.
    destruct (float_gt a t).
    + destruct (int_mul_float height t) as [p|]; cbn [Python.bind]; [|discriminate].
      destruct (int_of_float p) as [n|]; cbn [Python.bind]; [|discriminate].
      destruct (int_truediv width 2); cbn [Python.bind]; [|discriminate].
      intros E. apply Ok_inj in E. subst c. apply make_even_even.
    + destruct (int_div_float width t) as [p|]; cbn [Python.bind]; [|discriminate].
      destruct (int_of_float p) as [n|]; cbn [Python.bind]; [|discriminate].
      destruct (int_truediv height 2); cbn [Python.bind]; [|discriminate].
      intros E. apply Ok_inj in E. subst c. apply make_even_even.
  - intros fw fh. unfold Geometry.letterbox.
    destruct (Geometry.aspects width height w_ratio h_ratio) as [[a t]|e];
      [|discriminate].
    cbn [Python.bind fst snd]. unfold Geometry.letterbox_branch. cbv zeta.
    destruct (float_gt a t).
    + destruct (int_div_float width t) as [p|]; cbn [Python.bind]; [|discriminate].
      destruct (int_of_float p) as [n|]; cbn [Python.bind]; [|discriminate].
      cbv zeta. intros E. apply Ok_inj in E. injection E as <- <-. left.
      split; [reflexivity|apply make_even_even].
    + destruct (int_mul_float height t) as [p|]; cbn [Python.bind]; [|discriminate].
      destruct (int_of_float p) as [n|]; cbn [Python.bind]; [|discriminate].
      cbv zeta. intros E. apply Ok_inj in E. injection E as <- <-. right.
      split; [reflexivity|apply make_even_even].
Qed.

Import Python Binary64 Binary64Facts OpsFacts GeometryFacts Stated.

Lemma crop_unfolded (width height w_ratio h_ratio : Z) :
  Geometry.crop width height w_ratio h_ratio
  = (a <- int_truediv width height ;;
     t <- int_truediv w_ratio h_ratio ;;
     if float_gt a t then
       p <- int_mul_float height t ;;
       n <- int_of_float p ;;
       x_center <- int_truediv width 2 ;;
       Ok (Geometry.crop_x x_center (Exact.decrement_if_odd n))
     else
       p <- int_div_float width t ;;
       n <- int_of_float p ;;
       y_center <- int_truediv height 2 ;;
       Ok (Geometry.crop_y y_center (Exact.decrement_if_odd n)))%py.
Proof.
  unfold Geometry.crop, Geometry.aspects, Geometry.crop_branch.
  destruct (int_truediv width height) as [a|]; [|reflexivity].
  destruct (int_truediv w_ratio h_ratio) as [t|]; [|reflexivity].
  cbn [Python.bind fst snd]. cbv zeta.
  destruct (float_gt a t).
  - destruct (int_mul_float height t) as [p|]; [|reflexivity]. cbn [Python.bind].
    destruct (int_of_float p) as [n|]; [|reflexivity]. cbn [Python.bind].
    rewrite make_even_decrement. reflexivity.
  - destruct (int_div_float width t) as [p|]; [|reflexivity]. cbn [Python.bind].
    destruct (int_of_float p) as [n|]; [|reflexivity]. cbn [Python.bind].
    rewrite make_even_decrement. reflexivity.
Qed.

Lemma letterbox_unfolded (width height w_ratio h_ratio : Z) :
  Geometry.letterbox width height w_ratio h_ratio
  = (a <- int_truediv width height ;;
     t <- int_truediv w_ratio h_ratio ;;
     if float_gt a t then
       p <- int_div_float width t ;;
       n <- int_of_float p ;;
       Ok (width, Exact.decrement_if_odd n)
     else
       p <- int_mul_float height t ;;
       n <- int_of_float p ;;
       Ok (Exact.decrement_if_odd n, height))%py.
Proof.
  unfold Geometry.letterbox, Geometry.aspects, Geometry.letterbox_branch.
  destruct (int_truediv width height) as [a|]; [|reflexivity].
  destruct (int_truediv w_ratio h_ratio) as [t|]; [|reflexivity].
  cbn [Python.bind fst snd]. cbv zeta.
  destruct (float_gt a t).
  - destruct (int_div_float width t) as [p|]; [|reflexivity]. cbn [Python.bind].
    destruct (int_of_float p) as [n|]; [|reflexivity]. cbn [Python.bind].
    rewrite make_even_decrement. reflexivity.
  - destruct (int_mul_float height t) as [p|]; [|reflexivity]. cbn [Python.bind].
    destruct (int_of_float p) as [n|]; [|reflexivity]. cbn [Python.bind].
    rewrite make_even_decrement. reflexivity.
Qed.

(** Half of a dimension is the rational the specification names. *)
Lemma center_exact n :
  0 <= n <= 2 ^ 53 ->
  exists x, int_truediv n 2 = Ok x /\ Exact.same_center x (inject_Z n / 2)%Q.
Proof.
  intros H. exists (Finite (n * 2 ^ 1073)). split; [apply int_truediv_two, H|].
  unfold Exact.same_center, Exact.value, Qeq, Qdiv, Qmult, Qinv, inject_Z.
  cbn [Qnum Qden]. rewrite Z.mul_1_r.
  change (Z.pos (1 * 2)) with 2.
  rewrite Z2Pos.id by lia.
  change (2 ^ 1074) with (2 ^ 1073 * 2). ring.
Qed.

(** ** The computations against the specification's formulas *)

(** C1 fails as stated: for a 1920x98 clip and the ratio 1:49 the double
    product [98 * (1 / 49)] is 1.9999999999999998, so the code computes
    [new_width = 0] where the exact formula gives 2. *)
Lemma crop_is_not_exact :
  (exists x, Geometry.crop 1920 98 1 49 = Ok (Geometry.crop_x x 0))
  /\ (exists x, Exact.crop 1920 98 1 49 = Exact.keep_height 2 x)
  /\ ~ crop_as_specified 1920 98 1 49.
Proof.
  assert (E : Geometry.crop 1920 98 1 49
              = Ok (Geometry.crop_x (Finite (960 * 2 ^ 1074)) 0))
    by (vm_compute; reflexivity).
  split; [eexists; exact E|].
  split; [eexists; vm_compute; reflexivity|].
  intros (c & Ec & M). rewrite E in Ec. apply Ok_inj in Ec. subst c.
  change (Exact.crop 1920 98 1 49) with (Exact.keep_height 2 (1920 # 2)) in M.
  destruct M as [M _]. discriminate M.
Qed.

(** C1 (amended): the crop computation is the specification's formula
    evaluated in binary64 arithmetic. With [original_aspect] and
    [target_aspect] the doubles nearest to width/height and
    w_ratio/h_ratio: if [original_aspect > target_aspect] the height is kept,
    [new_width = int(height * target_aspect)] decremented by 1 if odd, and
    the crop is centred at [width / 2]; otherwise the width is kept,
    [new_height = int(width / target_aspect)] decremented by 1 if odd, and
    the crop is centred at [height / 2]. An exception of one step is the
    result. The centres are exactly half of the dimension (up to 2^53). For
    "1:1" and 1920x1080, [new_width = 1080] and the centre is 960. *)
Theorem crop_in_binary64 (width height w_ratio h_ratio : Z) :
  0 < width -> 0 < height -> 0 < w_ratio -> 0 < h_ratio ->
  Geometry.crop width height w_ratio h_ratio
  = (original_aspect <- int_truediv width height ;;
     target_aspect <- int_truediv w_ratio h_ratio ;;
     if float_gt original_aspect target_aspect then
       p <- int_mul_float height target_aspect ;;
       n <- int_of_float p ;;
       x_center <- int_truediv width 2 ;;
       Ok (Geometry.crop_x x_center (Exact.decrement_if_odd n))
     else
       p <- int_div_float width target_aspect ;;
       n <- int_of_float p ;;
       y_center <- int_truediv height 2 ;;
       Ok (Geometry.crop_y y_center (Exact.decrement_if_odd n)))%py
  /\ (width <= 2 ^ 53 ->
      exists x, int_truediv width 2 = Ok x
                /\ Exact.same_center x (inject_Z width / 2)%Q)
  /\ (height <= 2 ^ 53 ->
      exists y, int_truediv height 2 = Ok y
                /\ Exact.same_center y (inject_Z height / 2)%Q)
  /\ Text.parse_ratio "1:1" = Ok (1, 1)
  /\ Geometry.crop 1920 1080 1 1
     = Ok (Geometry.crop_x (Finite (960 * 2 ^ 1074)) 1080).
Proof.
  intros Hw Hh Hwr Hhr. split; [apply crop_unfolded|].
  split; [intros; apply center_exact; lia|].
  split; [intros; apply center_exact; lia|].
  split; [reflexivity|]. vm_compute; reflexivity.
Qed.

Lemma crop_in_binary64_witness :
  exists x, int_truediv 1920 2 = Ok x
            /\ Exact.same_center x (inject_Z 1920 / 2)%Q.
Proof.
  refine (proj1 (proj2 (crop_in_binary64 1920 1080 1 1 _ _ _ _)) _);
    vm_compute; congruence.
Defined.

Import Python Binary64 Binary64Facts OpsFacts GeometryFacts Stated.

(** C3 fails as stated: the letterbox of a 1921x1080 clip to 9:16 keeps the
    odd width 1921 for the canvas. *)
Lemma kept_dimension_may_be_odd :
  Geometry.letterbox 1921 1080 9 16 = Ok (1921, 3414)
  /\ Z.even 1921 = false
  /\ ~ dimensions_even 1921 1080 9 16.
Proof.
  assert (E : Geometry.letterbox 1921 1080 9 16 = Ok (1921, 3414))
    by (vm_compute; reflexivity).
  split; [exact E|]. split; [reflexivity|].
  intros [_ H]. destruct (H 1921 3414 E) as [O _]. discriminate O.
Qed.

Lemma computed_dimension_even_witness : Z.even 3412 = true.
Proof.
  destruct (proj2 (computed_dimension_even 1920 1080 9 16) 1920 3412) as [[_ H]|[H _]].
  - vm_compute; reflexivity.
  - exact H.
  - discriminate H.
Defined.

(** C4 fails as stated: a 1081x1081 clip letterboxed to 1:1 gets a
    1080x1081 canvas, and a 2x98 clip letterboxed to 1:49 a 0x98 canvas. *)
Lemma letterbox_may_shrink :
  Geometry.letterbox 1081 1081 1 1 = Ok (1080, 1081)
  /\ Geometry.letterbox 2 98 1 49 = Ok (0, 98)
  /\ ~ letterbox_never_shrinks 1081 1081 1 1
  /\ ~ letterbox_never_shrinks 2 98 1 49.
Proof.
  assert (E1 : Geometry.letterbox 1081 1081 1 1 = Ok (1080, 1081))
    by (vm_compute; reflexivity).
  assert (E2 : Geometry.letterbox 2 98 1 49 = Ok (0, 98))
    by (vm_compute; reflexivity).
  split; [exact E1|]. split; [exact E2|]. split.
  - intros H. destruct (H 1080 1081 E1) as [L _]. lia.
  - intros H. destruct (H 0 98 E2) as [L _]. lia.
Qed.

Lemma letterbox_at_least_witness :
  (1920 = 1920 /\ 1080 - 1 <= 3412 /\ (Z.even 1080 = true -> 1080 <= 3412))
  \/ (3412 = 1080 /\ 1920 - 2 <= 1920).
Proof.
  refine (letterbox_at_least 1920 1080 9 16 _ _ _ _ 1920 3412 _);
    vm_compute; try reflexivity; split; congruence.
Defined.

(** C5 fails as stated: for a clip 2^48 wide and 49 * 2^48 high and the
    ratio 1:49, the computed [new_height] is the height plus 2. *)
Lemma crop_may_exceed :
  (exists y, Geometry.crop (2 ^ 48) (49 * 2 ^ 48) 1 49
             = Ok (Geometry.crop_y y (49 * 2 ^ 48 + 2)))
  /\ ~ crop_never_exceeds (2 ^ 48) (49 * 2 ^ 48) 1 49.
Proof.
  assert (E : Geometry.crop (2 ^ 48) (49 * 2 ^ 48) 1 49
              = Ok (Geometry.crop_y (Finite (49 * 2 ^ 47 * 2 ^ 1074))
                      (49 * 2 ^ 48 + 2)))
    by (vm_compute; reflexivity).
  split; [eexists; exact E|].
  intros H. specialize (H _ E). cbv beta iota in H. lia.
Qed.

Lemma crop_within_original_witness : 0 <= 1080 <= 1920.
Proof.
  refine (crop_within_original 1920 1080 1 1 _ _ _ _
            (Geometry.crop_x (Finite (960 * 2 ^ 1074)) 1080) _);
    vm_compute; try reflexivity; split; congruence.
Defined.

(** C6: for the ratio "9:16" and a 1920x1080 source the letterbox canvas is
    1920x3412: [int(1920 / (9 / 16))] is 3413, odd, hence 3412; the width is
    unchanged and the canvas is higher than the frame (vertical padding). *)
Theorem letterbox_1920x1080_to_9_16 :
  Text.parse_ratio "9:16" = Ok (9, 16)
  /\ (target_aspect <- int_truediv 9 16 ;;
      p <- int_div_float 1920 target_aspect ;;
      int_of_float p)%py = Ok 3413
  /\ Geometry.make_even 3413 = 3412
  /\ Geometry.letterbox 1920 1080 9 16 = Ok (1920, 3412)
  /\ 1080 < 3412.
Proof.
  repeat split; vm_compute; reflexivity.
Qed.

(** C10: some positive dimensions and ratio give a computed dimension of 0:
    a 100x2 source with the ratio "1:1000" has [new_width = 0]. *)
Theorem crop_dimension_can_be_zero :
  Text.parse_ratio "1:1000" = Ok (1, 1000)
  /\ exists width height w_ratio h_ratio x_center,
       0 < width /\ 0 < height /\ 0 < w_ratio /\ 0 < h_ratio
       /\ Geometry.crop width height w_ratio h_ratio
          = Ok (Geometry.crop_x x_center 0)
       /\ (width, height, w_ratio, h_ratio) = (100, 2, 1, 1000).
Proof.
  split; [reflexivity|].
  exists 100, 2, 1, 1000, (Finite (50 * 2 ^ 1074)).
  repeat split; vm_compute; reflexivity.
Qed.

Import Python Binary64 Binary64Facts OpsFacts GeometryFacts Stated.

(** ** More on the computations *)

Module MoreGeometry.

Lemma round_half_even_scale k num den :
  0 < k -> 0 < den ->
  round_half_even (k * num) (k * den) = round_half_even num den.
Proof.
  intros Hk Hd. unfold round_half_even.
  rewrite Z.div_mul_cancel_l by lia.
  rewrite Z.mul_mod_distr_l by lia.
  replace (k * den <? 2 * (k * (num mod den))) with (den <? 2 * (num mod den)).
  - replace (k * den =? 2 * (k * (num mod den))) with (den =? 2 * (num mod den));
      [reflexivity|].
    destruct (Z.eqb_spec den (2 * (num mod den)));
      destruct (Z.eqb_spec (k * den) (2 * (k * (num mod den)))); try reflexivity; nia.
  - destruct (Z.ltb_spec den (2 * (num mod den)));
      destruct (Z.ltb_spec (k * den) (2 * (k * (num mod den)))); try reflexivity; nia.
Qed.

(** Rounding depends on the value of the fraction only. *)
Lemma round_pos_scale k n d :
  0 < k -> 0 < d -> round_pos (k * n) (k * d) = round_pos n d.
Proof.
  intros Hk Hd. unfold round_pos, ulp_shift.
  replace (k * n * 2 ^ 1074) with (k * (n * 2 ^ 1074)) by ring.
  rewrite Z.div_mul_cancel_l by lia.
  set (sh := Z.max 0 (Z.log2 (n * 2 ^ 1074 / d) - 52)).
  replace (k * d * 2 ^ sh) with (k * (d * 2 ^ sh)) by ring.
  rewrite round_half_even_scale; [reflexivity|lia|].
  assert (0 < 2 ^ sh) by (apply Z.pow_pos_nonneg; lia). nia.
Qed.

Lemma round_pos_same_value n d n' d' :
  0 < d -> 0 < d' -> n * d' = n' * d -> round_pos n d = round_pos n' d'.
Proof.
  intros Hd Hd' E.
  rewrite <- (round_pos_scale d' n d) by lia.
  rewrite <- (round_pos_scale d n' d') by lia.
  f_equal; lia.
Qed.

(** In the normal range rounding adds less than one part in 2^52. *)
Lemma round_pos_relative_up n d u :
  0 <= n -> 0 < d -> 2 ^ 53 * d <= n * 2 ^ 1074 ->
  round_pos n d = Finite u ->
  u * d * 2 ^ 52 <= n * 2 ^ 1074 * (2 ^ 52 + 1).
Proof.
  intros Hn Hd Hbig. unfold round_pos.
  set (x := n * 2 ^ 1074) in *.
  pose proof (ulp_shift_pos x d Hd Hbig) as S0.
  pose proof (ulp_shift_normal x d Hd S0) as N.
  set (sh := ulp_shift x d) in *.
  assert (P : 0 < 2 ^ sh) by (apply Z.pow_pos_nonneg; lia).
  assert (Y : 0 < d * 2 ^ sh) by nia.
  set (m := round_half_even x (d * 2 ^ sh)).
  destruct (2 ^ 2098 <=? m * 2 ^ sh); [discriminate|].
  intros E. apply f_equal with (f := fun p => match p with Finite v => v | _ => 0 end) in E.
  cbv beta iota in E. subst u.
  assert (Q : m <= x / (d * 2 ^ sh) + 1).
  { apply round_half_even_le; [exact Y|].
    pose proof (Z.mul_succ_div_gt x (d * 2 ^ sh) Y). lia. }
  pose proof (Z.mul_div_le x (d * 2 ^ sh) Y) as G.
  set (q := x / (d * 2 ^ sh)) in *.
  set (Yv := d * 2 ^ sh) in *.
  assert (m * Yv <= x + Yv) by nia.
  replace (m * 2 ^ sh * d) with (m * Yv) by (unfold Yv; ring).
  set (c := 2 ^ 52) in *.
  assert (0 < c) by (unfold c; apply Z.pow_pos_nonneg; lia).
  nia.
Qed.

Lemma aspect_relative_up w h A :
  0 < w -> 0 < h < 2 ^ 52 -> round_pos w h = Finite A ->
  A * h * 2 ^ 52 <= w * 2 ^ 1074 * (2 ^ 52 + 1).
Proof.
  intros Hw Hh R.
  assert (2 ^ 53 * h <= w * 2 ^ 1074).
  { apply Z.le_trans with (2 ^ 53 * 2 ^ 52); [nia|].
    apply Z.le_trans with (1 * 2 ^ 1074); [lia|nia]. }
  apply round_pos_relative_up; try assumption; lia.
Qed.

(** The quotient of two ints below 2^53 never overflows and is not zero. *)
Lemma int_truediv_bounded a b :
  0 < a <= 2 ^ 53 -> 0 < b <= 2 ^ 53 ->
  exists u, int_truediv a b = Ok (Finite u) /\ round_pos a b = Finite u
            /\ representable u /\ 2 ^ 1021 <= u <= 2 ^ 53 * 2 ^ 1074.
Proof.
  intros Ha Hb.
  destruct (round_pos_le a b (2 ^ 53 * 2 ^ 1074) ltac:(lia) ltac:(lia))
    as (u & R & U).
  - apply representable_int. lia.
  - nia.
  - pose proof (round_pos_ge a b (2 ^ 1021) ltac:(lia) ltac:(lia)) as G.
    rewrite R in G.
    assert (2 ^ 1021 <= u).
    { apply G.
      - exists 1, 1021. repeat split; lia.
      - change (2 ^ 1074) with (2 ^ 1021 * 2 ^ 53). nia. }
    destruct (round_pos_representable a b u ltac:(lia) ltac:(lia) R) as [PU _].
    exists u. repeat split; try assumption; try lia.
    unfold int_truediv. destruct (b =? 0) eqn:B; [apply Z.eqb_eq in B; lia|].
    rewrite round_nonneg by lia. rewrite R. reflexivity.
Qed.

Lemma representable_pow k : 0 <= k < 2098 -> representable (2 ^ k).
Proof.
  intros H. exists 1, k. repeat split; try lia.
  apply Z.pow_lt_mono_r; lia.
Qed.

Lemma int_mul_float_finite h T :
  0 <= h <= 2 ^ 53 -> 0 <= T <= 2 ^ 53 * 2 ^ 1074 ->
  exists u, int_mul_float h (Finite T) = Ok (Finite u) /\ 0 <= u.
Proof.
  intros Hh HT. rewrite int_mul_float_pos by lia.
  destruct (round_pos_le (h * 2 ^ 1074 * T) (2 ^ 2148) (2 ^ 106 * 2 ^ 1074))
    as (u & R & U).
  - apply Z.mul_nonneg_nonneg; lia.
  - lia.
  - rewrite <- Z.pow_add_r by lia. apply representable_pow. lia.
  - rewrite pow_2148. set (c := 2 ^ 1074) in *.
    assert (0 < c) by (unfold c; lia).
    assert (h * T <= 2 ^ 106 * c).
    { change (2 ^ 106) with (2 ^ 53 * 2 ^ 53). nia. }
    nia.
  - exists u. rewrite R. split; [reflexivity|lia].
Qed.

Lemma int_div_float_finite w T :
  0 <= w <= 2 ^ 53 -> 2 ^ 1021 <= T ->
  exists u, int_div_float w (Finite T) = Ok (Finite u) /\ 0 <= u.
Proof.
  intros Hw HT. rewrite int_div_float_pos by lia.
  destruct (round_pos_le (w * 2 ^ 1074) T (2 ^ 106 * 2 ^ 1074))
    as (u & R & U).
  - lia.
  - lia.
  - rewrite <- Z.pow_add_r by lia. apply representable_pow. lia.
  - set (c := 2 ^ 1074) in *.
    assert (0 < c) by (unfold c; lia).
    assert (w * c <= 2 ^ 106 * T); [|nia].
    apply Z.le_trans with (2 ^ 53 * c); [nia|].
    apply Z.le_trans with (2 ^ 106 * 2 ^ 1021); [|nia].
    unfold c. rewrite <- !Z.pow_add_r by lia. apply Z.pow_le_mono_r; lia.
  - exists u. rewrite R. split; [reflexivity|lia].
Qed.

End MoreGeometry.

Import Python Binary64 Binary64Facts OpsFacts GeometryFacts Stated MoreGeometry.

Lemma mul_le_half h T w p :
  0 <= h <= 2 ^ 53 -> 0 <= T -> 0 <= w < 2 ^ 52 ->
  h * T <= (2 * w + 1) * 2 ^ 1073 ->
  int_mul_float h (Finite T) = Ok p ->
  exists n, int_of_float p = Ok n /\ 0 <= n <= w.
Proof.
  intros Hh HT Hw B. rewrite int_mul_float_pos by assumption.
  intros E. apply Ok_inj in E. subst p.
  destruct (round_pos_le (h * 2 ^ 1074 * T) (2 ^ 2148) ((2 * w + 1) * 2 ^ 1073))
    as (u & R & U).
  - apply Z.mul_nonneg_nonneg; lia.
  - lia.
  - apply representable_half. lia.
  - rewrite pow_2148. set (c := 2 ^ 1074) in *. assert (0 < c) by (unfold c; lia). nia.
  - rewrite R. exists (Z.quot u (2 ^ 1074)). split; [reflexivity|]. split.
    + apply Z.quot_pos; lia.
    + apply quot_ulps_le; [lia|].
      change (2 ^ 1074) with (2 ^ 1073 * 2).
      set (c := 2 ^ 1073) in *. assert (0 < c) by (unfold c; lia). nia.
Qed.

(** X1: for source dimensions below 2^51 and ratio components up to 2^53,
    neither computation raises: the crop arguments and the letterbox canvas
    are always produced. *)
Theorem geometry_returns (width height w_ratio h_ratio : Z) :
  0 < width < 2 ^ 51 -> 0 < height < 2 ^ 51 ->
  0 < w_ratio <= 2 ^ 53 -> 0 < h_ratio <= 2 ^ 53 ->
  (exists c, Geometry.crop width height w_ratio h_ratio = Ok c)
  /\ (exists final_width final_height,
        Geometry.letterbox width height w_ratio h_ratio
        = Ok (final_width, final_height)).
Proof.
  intros Hw Hh Hwr Hhr.
  assert (B : 2 ^ 51 < 2 ^ 53) by lia.
  destruct (int_truediv_bounded width height ltac:(lia) ltac:(lia))
    as (A & EA & _ & _ & A0).
  destruct (int_truediv_bounded w_ratio h_ratio Hwr Hhr)
    as (T & ET & _ & _ & T0).
  destruct (int_mul_float_finite height T ltac:(lia) ltac:(lia)) as (um & EM & _).
  destruct (int_div_float_finite width T ltac:(lia) ltac:(lia)) as (ud & ED & _).
  split.
  - unfold Geometry.crop, Geometry.aspects. rewrite EA, ET.
    cbn [Python.bind fst snd]. unfold Geometry.crop_branch.
    destruct (float_gt (Finite A) (Finite T)).
    + rewrite EM. cbn [Python.bind int_of_float]. cbv zeta.
      rewrite int_truediv_two by lia. cbn [Python.bind]. eexists. reflexivity.
    + rewrite ED. cbn [Python.bind int_of_float]. cbv zeta.
      rewrite int_truediv_two by lia. cbn [Python.bind]. eexists. reflexivity.
  - unfold Geometry.letterbox, Geometry.aspects. rewrite EA, ET.
    cbn [Python.bind fst snd]. unfold Geometry.letterbox_branch. cbv zeta.
    destruct (float_gt (Finite A) (Finite T)).
    + rewrite ED. cbn [Python.bind int_of_float]. eexists _, _. reflexivity.
    + rewrite EM. cbn [Python.bind int_of_float]. eexists _, _. reflexivity.
Qed.

Lemma geometry_returns_witness :
  (exists c, Geometry.crop 1920 1080 9 16 = Ok c)
  /\ (exists final_width final_height,
        Geometry.letterbox 1920 1080 9 16 = Ok (final_width, final_height)).
Proof.
  refine (geometry_returns 1920 1080 9 16 _ _ _ _); vm_compute; split; congruence.
Defined.

(** X2: a source that already has the target ratio (width * h_ratio =
    height * w_ratio, dimensions below 2^51) is treated as "not wider": the
    crop keeps the width and removes at most 2 rows, the letterbox keeps the
    height and its canvas is at most 2 columns narrower, never wider. *)
Theorem source_in_target_ratio (width height w_ratio h_ratio : Z) :
  0 < width < 2 ^ 51 -> 0 < height < 2 ^ 51 -> 0 < w_ratio -> 0 < h_ratio ->
  width * h_ratio = height * w_ratio ->
  (forall c, Geometry.crop width height w_ratio h_ratio = Ok c ->
     exists y_center new_height,
       c = Geometry.crop_y y_center new_height
       /\ height - 2 <= new_height <= height)
  /\ (forall final_width final_height,
        Geometry.letterbox width height w_ratio h_ratio
        = Ok (final_width, final_height) ->
        final_height = height /\ width - 2 <= final_width <= width).
Proof.
  intros Hw Hh Hwr Hhr Same.
  assert (B : 2 ^ 51 < 2 ^ 53) by lia.
  assert (RS : round_pos width height = round_pos w_ratio h_ratio).
  { apply round_pos_same_value; lia. }
  split.
  - intros c. unfold Geometry.crop.
    destruct (Geometry.aspects width height w_ratio h_ratio) as [[a t]|e] eqn:EA;
      [|discriminate].
    destruct (aspects_pos width height w_ratio h_ratio a t ltac:(lia) ltac:(lia) Hwr Hhr EA)
      as (A & T & -> & -> & RA & RT & PA & PT & A0 & T0).
    assert (A = T) by congruence. subst T.
    cbn [Python.bind fst snd]. unfold Geometry.crop_branch, float_gt. cbv zeta.
    rewrite Z.ltb_irrefl.
    destruct (int_div_float width (Finite A)) as [p|e] eqn:ED; cbn [Python.bind];
      [|discriminate].
    assert (A <> 0).
    { intros ->. rewrite int_div_float_zero in ED by lia. discriminate. }
    pose proof (aspect_relative width height A ltac:(lia) ltac:(lia) RA) as R.
    pose proof (aspect_relative_up width height A ltac:(lia) ltac:(lia) RA) as RU.
    destruct (div_le_int width A height p ltac:(lia) ltac:(lia) ltac:(lia)) as (n & EN & N).
    + set (c52 := 2 ^ 52) in *. set (x := width * 2 ^ 1074) in *.
      assert (0 < x) by (unfold x; lia).
      assert (2 * height + 1 <= c52) by (unfold c52; lia).
      assert (0 < c52) by (unfold c52; lia).
      assert (2 * x * (height * c52) <= (2 * height + 1) * A * (height * c52)); [|nia].
      nia.
    + exact ED.
    + rewrite EN. cbn [Python.bind].
      assert (L : height - 1 <= n).
      { apply (div_ge_int width A (height - 1) p n); try assumption; try lia.
        set (c52 := 2 ^ 52) in *. set (x := width * 2 ^ 1074) in *.
        assert (0 < x) by (unfold x; lia).
        assert (height <= c52) by (unfold c52; lia).
        assert (0 < c52) by (unfold c52; lia).
        assert ((height - 1) * A * (height * c52) <= x * (height * c52)); [|nia].
        nia. }
      destruct (int_truediv height 2) as [y|]; cbn [Python.bind]; [|discriminate].
      intros E. apply Ok_inj in E. subst c.
      pose proof (make_even_bounds n). eexists _, _. split; [reflexivity|lia].
  - intros fw fh. unfold Geometry.letterbox.
    destruct (Geometry.aspects width height w_ratio h_ratio) as [[a t]|e] eqn:EA;
      [|discriminate].
    destruct (aspects_pos width height w_ratio h_ratio a t ltac:(lia) ltac:(lia) Hwr Hhr EA)
      as (A & T & -> & -> & RA & RT & PA & PT & A0 & T0).
    assert (A = T) by congruence. subst T.
    cbn [Python.bind fst snd]. unfold Geometry.letterbox_branch, float_gt. cbv zeta.
    rewrite Z.ltb_irrefl.
    destruct (int_mul_float height (Finite A)) as [p|e] eqn:EM; cbn [Python.bind];
      [|discriminate].
    pose proof (aspect_relative width height A ltac:(lia) ltac:(lia) RA) as R.
    pose proof (aspect_relative_up width height A ltac:(lia) ltac:(lia) RA) as RU.
    destruct (mul_le_half height A width p ltac:(lia) A0 ltac:(lia)) as (n & EN & N).
    + change (2 ^ 1074) with (2 ^ 1073 * 2) in RU.
      set (c52 := 2 ^ 52) in *. set (c := 2 ^ 1073) in *.
      assert (0 < c) by (unfold c; lia).
      assert (0 < c52) by (unfold c52; lia).
      assert (2 * width <= c52) by (unfold c52; lia).
      assert (height * A * c52 <= (2 * width + 1) * c * c52); [|nia].
      nia.
    + exact EM.
    + rewrite EN. cbn [Python.bind].
      assert (L : width - 1 <= n).
      { assert (G : (width - 1) * 2 ^ 1074 <= height * A) by lia.
        apply (mul_ge_int height A (width - 1) p n); try assumption; lia. }
      intros E. apply Ok_inj in E. injection E as <- <-.
      pose proof (make_even_bounds n). split; [reflexivity|lia].
Qed.

Lemma source_in_target_ratio_witness :
  1080 = 1080 /\ 1920 - 2 <= 1920 <= 1920.
Proof.
  refine (proj2 (source_in_target_ratio 1920 1080 16 9 _ _ _ _ _) 1920 1080 _);
    vm_compute; try reflexivity; split; congruence.
Defined.

Import Python Binary64.

(** ** The float model against Stdlib's reference operations *)

Module Binary64Checks.
Import SpecFloat Reference.

(** The quotients of ints agree with [SFdiv] on unrounded operands, also
    at the edges of the range. *)
Lemma int_truediv_agrees :
  of_spec_float (SFdiv 53 1024 (raw 1) (raw 49)) = Some (round 1 49)
  /\ of_spec_float (SFdiv 53 1024 (raw 16) (raw 9)) = Some (round 16 9)
  /\ of_spec_float (SFdiv 53 1024 (raw 1920) (raw 1080)) = Some (round 1920 1080)
  /\ of_spec_float (SFdiv 53 1024 (raw 1) (raw (2 ^ 1075 - 1)))
     = Some (round 1 (2 ^ 1075 - 1))
  /\ of_spec_float (SFdiv 53 1024 (raw 3) (raw (2 ^ 1075)))
     = Some (round 3 (2 ^ 1075))
  /\ of_spec_float (SFdiv 53 1024 (raw (2 ^ 1024 - 2 ^ 970 - 1)) (raw 1))
     = Some (round (2 ^ 1024 - 2 ^ 970 - 1) 1)
  /\ of_spec_float (SFdiv 53 1024 (raw (2 ^ 1024 - 2 ^ 970)) (raw 1))
     = Some (round (2 ^ 1024 - 2 ^ 970) 1).
Proof. repeat split; vm_compute; reflexivity. Qed.

(** Products and quotients of doubles agree with [SFmul] and [SFdiv]. *)
Lemma float_operations_agree :
  let t := SFdiv 53 1024 (raw 1) (raw 49) in
  of_spec_float (SFmul 53 1024 (binary_normalize 53 1024 98 0 false) t)
  = Some (float_mul (round 98 1) (round 1 49))
  /\ of_spec_float (SFdiv 53 1024 (binary_normalize 53 1024 (2 ^ 48) 0 false) t)
     = match float_div (round (2 ^ 48) 1) (round 1 49) with
       | Ok x => Some x
       | Raise _ => None
       end
  /\ of_spec_float (binary_normalize 53 1024 (2 ^ 53 + 3) 0 false)
     = Some (round (2 ^ 53 + 3) 1).
Proof. repeat split; vm_compute; reflexivity. Qed.

End Binary64Checks.

Import Python Binary64 Binary64Facts OpsFacts GeometryFacts Stated.

Module RunFacts.
Import Text Tool Run.
Local Open Scope string_scope.

Section Env.
Variable E : environment.

Lemma exec_pbind {A B} (p : prog A) (f : A -> prog B) (s : world E) :
  exec E (pbind p f) s
  = ((fst (fst (exec E p s))
       ++ fst (fst (exec E (f (snd (fst (exec E p s)))) (snd (exec E p s)))))%list,
     snd (fst (exec E (f (snd (fst (exec E p s)))) (snd (exec E p s)))),
     snd (exec E (f (snd (fst (exec E p s)))) (snd (exec E p s)))).
Proof.
  revert s. induction p as [a|R c k IH]; intros s.
  - cbn. destruct (exec E (f a) s) as [[tr b] s']. reflexivity.
  - cbn. rewrite IH. reflexivity.
Qed.

Lemma trace_pbind {A B} (p : prog A) (f : A -> prog B) (s : world E) :
  trace E (pbind p f) s
  = (trace E p s
      ++ trace E (f (snd (fst (exec E p s)))) (snd (exec E p s)))%list.
Proof. unfold trace. rewrite exec_pbind. reflexivity. Qed.

Lemma trace_vis {A R} (c : call R) (k : R -> prog A) (s : world E) :
  trace E (Vis c k) s
  = Ev c (answer E c s) :: trace E (k (answer E c s)) (after E c s).
Proof. reflexivity. Qed.

Lemma trace_ret {A} (a : A) (s : world E) : trace E (Ret a) s = [].
Proof. reflexivity. Qed.

End Env.

Lemma parse_ratio_form s w h :
  parse_ratio s = Ok (w, h) -> ratio_form s.
Proof.
  unfold parse_ratio, ratio_form.
  destruct (split ":" s) as [|sw [|sh [|x r]]]; try discriminate.
  destruct (int_of_string sw) as [w'|] eqn:Ew; [|discriminate].
  destruct (int_of_string sh) as [h'|] eqn:Eh; [|discriminate].
  cbn [Python.bind].
  destruct ((w' <=? 0)%Z || (h' <=? 0)%Z) eqn:T; [discriminate|].
  intros _. apply orb_false_iff in T. destruct T as [T1 T2].
  apply Z.leb_gt in T1, T2.
  exists sw, sh, w', h'. auto.
Qed.

Lemma parse_ratio_raises s e : parse_ratio s = Raise e -> e = ValueError.
Proof.
  assert (V : forall A (e' : exn), @Raise A ValueError = Raise e' -> e' = ValueError).
  { intros A e' Q. injection Q as <-. reflexivity. }
  assert (D : forall t b a e', digits t b a = Raise e' -> e' = ValueError).
  { induction t as [|c t IH]; intros b a e'; cbn [digits].
    - destruct b; [discriminate|apply V].
    - destruct (is_digit c); [apply IH|].
      destruct (Ascii.eqb c "_").
      + destruct t as [|c' t']; [apply V|].
        destruct (b && is_digit c'); [apply IH|apply V].
      + destruct (b && all_space (String c t)); [discriminate|apply V]. }
  assert (D' : forall t e', (n <- digits t false 0 ;; Ok (- n))%py = Raise e' -> e' = ValueError).
  { intros t e'. destruct (digits t false 0) eqn:X; cbn; [discriminate|].
    intros Q. injection Q as <-. eapply D, X. }
  assert (I : forall t e', int_of_string t = Raise e' -> e' = ValueError).
  { intros t e'. unfold int_of_string.
    destruct (Nat.ltb max_str_digits (digit_count t)); [apply V|].
    destruct (lstrip t) as [|c t'] eqn:L; [apply D|].
    destruct c as [[] [] [] [] [] [] [] []]; first [apply D | apply D']. }
  unfold parse_ratio.
  destruct (split ":" s) as [|sw [|sh [|x r]]]; try apply V.
  destruct (Text.int_of_string sw) as [w'|] eqn:Ew; cbn [Python.bind].
  - destruct (Text.int_of_string sh) as [h'|] eqn:Eh; cbn [Python.bind].
    + destruct ((w' <=? 0)%Z || (h' <=? 0)%Z); [apply V|discriminate].
    + intros Q. injection Q as <-. eapply I, Eh.
  - intros Q. injection Q as <-. eapply I, Ew.
Qed.

Lemma parse_ratio_not_form s : ~ ratio_form s -> parse_ratio s = Raise ValueError.
Proof.
  intros N. destruct (parse_ratio s) as [[w h]|e] eqn:P.
  - exfalso. apply N. eapply parse_ratio_form, P.
  - f_equal. eapply parse_ratio_raises, P.
Qed.

End RunFacts.

Import Python Binary64 Stated.
Import Text Tool Run RunFacts.
Local Open Scope string_scope.

(** ** The run before the loop *)

(** C9: when the input directory exists, the output path does not, and the
    ratio string is malformed, the run (with moviepy available) creates the
    output directory and only then reports the ratio error and returns: the
    calls are exactly [isdir], [exists], the message, [makedirs], the
    progress message and the error message. *)
Theorem output_directory_created_before_ratio_error
    (E : environment) (s : world E)
    (folder_path output_path target_aspect_ratio : string)
    (conversion_method output_suffix : string) :
  ~ ratio_form target_aspect_ratio ->
  answer E (os_path_isdir folder_path) s = true ->
  answer E (os_path_exists output_path) (after E (os_path_isdir folder_path) s)
  = false ->
  trace E (convert_videos_in_folder true folder_path output_path
             target_aspect_ratio conversion_method output_suffix) s
  = [Ev (os_path_isdir folder_path) true;
     Ev (os_path_exists output_path) false;
     printed (msg_creating_output output_path);
     Ev (os_makedirs output_path) tt;
     printed (msg_processing_folder folder_path);
     printed msg_bad_ratio].
Proof.
  intros N D X. unfold convert_videos_in_folder.
  rewrite (parse_ratio_not_form _ N).
  unfold answer, after, trace in *. cbn.
  destruct (respond E bool (os_path_isdir folder_path) s) as [d s1].
  cbn in D, X |- *. subst d. cbn.
  destruct (respond E bool (os_path_exists output_path) s1) as [x s2].
  cbn in X |- *. subst x. cbn.
  destruct (respond E unit (print (msg_creating_output output_path)) s2) as [[] s3]. cbn.
  destruct (respond E unit (os_makedirs output_path) s3) as [[] s4]. cbn.
  destruct (respond E unit (print (msg_processing_folder folder_path)) s4) as [[] s5]. cbn.
  destruct (respond E unit (print msg_bad_ratio) s5) as [[] s6]. cbn.
  reflexivity.
Qed.

Lemma output_directory_created_before_ratio_error_witness :
  trace (sample ["a.mp4"] (fun _ => Ok (1920, 1080)%Z))
    (convert_videos_in_folder true "work_place" "output_place" "abc" "crop" "_Shorts")
    ["work_place"]
  = [Ev (os_path_isdir "work_place") true;
     Ev (os_path_exists "output_place") false;
     printed (msg_creating_output "output_place");
     Ev (os_makedirs "output_place") tt;
     printed (msg_processing_folder "work_place");
     printed msg_bad_ratio].
Proof.
  refine (output_directory_created_before_ratio_error
            (sample ["a.mp4"] (fun _ => Ok (1920, 1080)%Z)) ["work_place"]
            "work_place" "output_place" "abc" "crop" "_Shorts" _ _ _).
  - intros (sw & sh & w & h & S & _). discriminate S.
  - reflexivity.
  - reflexivity.
Defined.

(** C7: for every ratio string that is not "W:H" with positive integer
    components, no run scans the directory or reads, transforms or writes a
    file; with moviepy available the run ends on an error message, which is
    the ratio error when the input directory exists (and the missing-folder
    error otherwise). "abc" is such a string. *)
Theorem malformed_ratio_rejected_before_scan
    (E : environment) (s : world E) (MOVIEPY_INSTALLED : bool)
    (folder_path output_path target_aspect_ratio : string)
    (conversion_method output_suffix : string) :
  ~ ratio_form target_aspect_ratio ->
  let tr := trace E (convert_videos_in_folder MOVIEPY_INSTALLED folder_path
                       output_path target_aspect_ratio conversion_method
                       output_suffix) s in
  Forall (fun e => is_scan e = false /\ is_file_work e = false) tr
  /\ (MOVIEPY_INSTALLED = true ->
      exists before m,
        tr = (before ++ [printed m])%list /\ is_error_message m = true
        /\ (answer E (os_path_isdir folder_path) s = true -> m = msg_bad_ratio))
  /\ ~ ratio_form "abc".
Proof.
  intros N tr. subst tr. unfold convert_videos_in_folder.
  rewrite (parse_ratio_not_form _ N).
  split; [|split].
  - destruct MOVIEPY_INSTALLED; [|constructor].
    unfold trace. cbn.
    destruct (respond E bool (os_path_isdir folder_path) s) as [[] s1]; cbn.
    + destruct (respond E bool (os_path_exists output_path) s1) as [[] s2]; cbn;
        repeat (constructor; [split; reflexivity|]); constructor.
    + repeat (constructor; [split; reflexivity|]); constructor.
  - intros ->. unfold trace, answer. cbn.
    destruct (respond E bool (os_path_isdir folder_path) s) as [[] s1]; cbn.
    + destruct (respond E bool (os_path_exists output_path) s1) as [[] s2]; cbn.
      * destruct (respond E unit (print (msg_processing_folder folder_path)) s2) as [[] s3]; cbn.
        destruct (respond E unit (print msg_bad_ratio) s3) as [[] s4]; cbn.
        eexists [_; _; _], msg_bad_ratio. repeat split.
      * destruct (respond E unit (print (msg_creating_output output_path)) s2) as [[] s3]; cbn.
        destruct (respond E unit (os_makedirs output_path) s3) as [[] s4]; cbn.
        destruct (respond E unit (print (msg_processing_folder folder_path)) s4) as [[] s5]; cbn.
        destruct (respond E unit (print msg_bad_ratio) s5) as [[] s6]; cbn.
        eexists [_; _; _; _; _], msg_bad_ratio. repeat split.
    + destruct (respond E unit (print (msg_input_missing folder_path)) s1) as [[] s2]; cbn.
      exists [Ev (os_path_isdir folder_path) false], (msg_input_missing folder_path).
      repeat split. discriminate.
  - intros (sw & sh & w & h & S & _). discriminate S.
Qed.

Lemma malformed_ratio_rejected_before_scan_witness :
  Forall (fun e => is_scan e = false /\ is_file_work e = false)
    (trace (sample ["a.mp4"] (fun _ => Ok (1920, 1080)%Z))
       (convert_videos_in_folder true "work_place" "output_place" "abc" "crop" "_Shorts")
       ["work_place"]).
Proof.
  refine (proj1 (malformed_ratio_rejected_before_scan
            (sample ["a.mp4"] (fun _ => Ok (1920, 1080)%Z)) ["work_place"] true
            "work_place" "output_place" "abc" "crop" "_Shorts" _)).
  intros (sw & sh & w & h & S & _). discriminate S.
Defined.

Import Python Binary64 Stated.
Import Text Tool Run RunFacts.
Local Open Scope string_scope.

Module LoopFacts.

(** Symbolic execution: unfold the program one call at a time and split on
    what the environment answers. *)
Ltac unfold_run :=
  cbn [exec pbind bbind io lib pure bret set_clip set_new_clip perform
       try_body save handler finally iteration fst snd clip_var new_clip_var
       app trace Python.bind].

Ltac answer_call :=
  match goal with
  | |- context [respond ?E ?R ?c ?s] =>
      let r := fresh "r" in
      let s' := fresh "s" in
      destruct (respond E R c s) as [r s'];
      try (destruct r as []); unfold_run
  end.

Section Loop.
Variable E : environment.
Variables folder_path output_path conversion_method output_suffix : string.
Variables w_ratio h_ratio : Z.

Let round_of := iteration folder_path output_path conversion_method
                  output_suffix w_ratio h_ratio.
Let loop := for_each folder_path output_path conversion_method
              output_suffix w_ratio h_ratio.

Lemma trace_for_each_cons filename rest l s :
  trace E (loop (filename :: rest) l) s
  = (trace E (round_of filename l) s
       ++ trace E (loop rest (snd (fst (exec E (round_of filename l) s))))
            (snd (exec E (round_of filename l) s)))%list.
Proof. unfold loop. cbn [for_each]. apply trace_pbind. Qed.

Lemma iteration_invalid_method filename l s :
  conversion_method <> "crop" -> conversion_method <> "letterbox" ->
  file_skipped folder_path conversion_method w_ratio h_ratio filename
    (trace E (round_of filename l) s).
Proof.
  intros NC NL. apply String.eqb_neq in NC, NL.
  unfold round_of, file_skipped, trace. destruct l as [cv nv]. unfold_run.
  destruct (respond E bool (os_path_isfile (path_join folder_path filename)) s)
    as [b s1]; unfold_run.
  exists b. eexists. split; [reflexivity|].
  destruct (b && is_video_name filename) eqn:Q; unfold_run; cycle 1.
  { split; [constructor|reflexivity]. }
  destruct (respond E (result clip)
              (VideoFileClip (path_join folder_path filename)) s1)
    as [[a|e0] s2]; unfold_run.
  - (* the clip is loaded *)
    destruct (int_truediv (fst (size a)) (snd (size a))) as [oa|e1] eqn:EA;
      unfold_run.
    + destruct (int_truediv w_ratio h_ratio) as [ta|e2] eqn:ET; unfold_run.
      * rewrite NC, NL. unfold_run. repeat answer_call.
        all: split; [repeat constructor|].
        all: exists (Ok a); eexists.
        all: unfold skip_message, Geometry.aspects; rewrite EA, ET.
        all: cbn [Python.bind].
        all: split; [reflexivity|repeat constructor].
      * repeat answer_call.
        all: destruct nv as [[nc|]|]; unfold_run; repeat answer_call.
        all: split; [repeat constructor|].
        all: exists (Ok a); eexists.
        all: unfold skip_message, Geometry.aspects; rewrite EA, ET.
        all: cbn [Python.bind].
        all: split; [reflexivity|repeat constructor].
    + repeat answer_call.
      all: destruct nv as [[nc|]|]; unfold_run; repeat answer_call.
      all: split; [repeat constructor|].
      all: exists (Ok a); eexists.
      all: unfold skip_message, Geometry.aspects; rewrite EA.
      all: cbn [Python.bind].
      all: split; [reflexivity|repeat constructor].
  - (* loading raised *)
    repeat answer_call.
    all: destruct cv as [c0|]; unfold_run; repeat answer_call.
    all: destruct nv as [[nc|]|]; unfold_run; repeat answer_call.
    all: split; [repeat constructor|].
    all: exists (Raise e0); eexists.
    all: unfold skip_message.
    all: split; [reflexivity|repeat constructor].
Qed.

Lemma for_each_invalid_method filenames :
  conversion_method <> "crop" -> conversion_method <> "letterbox" ->
  forall l s,
  exists segments,
    trace E (loop filenames l) s = List.concat segments
    /\ Forall2 (file_skipped folder_path conversion_method w_ratio h_ratio)
         filenames segments.
Proof.
  intros NC NL. induction filenames as [|f rest IH]; intros l s.
  - exists []. split; [reflexivity|constructor].
  - rewrite trace_for_each_cons.
    destruct (IH (snd (fst (exec E (round_of f l) s)))
                (snd (exec E (round_of f l) s))) as (segs & -> & F).
    exists (trace E (round_of f l) s :: segs). split; [reflexivity|].
    constructor; [apply iteration_invalid_method; assumption|exact F].
Qed.

End Loop.

End LoopFacts.

Import Python Binary64 Stated.
Import Text Tool Run Calls RunFacts LoopFacts.
Local Open Scope string_scope.

Module CallFacts.

Section Loop.
Variable E : environment.
Variables folder_path output_path conversion_method output_suffix : string.
Variables w_ratio h_ratio : Z.

Let round_of := iteration folder_path output_path conversion_method
                  output_suffix w_ratio h_ratio.
Let loop := for_each folder_path output_path conversion_method
              output_suffix w_ratio h_ratio.
Let ok := call_as_computed folder_path output_path conversion_method
            output_suffix w_ratio h_ratio.

Lemma crop_of_branch c oa ta args :
  int_truediv (fst (size c)) (snd (size c)) = Ok oa ->
  int_truediv w_ratio h_ratio = Ok ta ->
  Geometry.crop_branch (fst (size c)) (snd (size c)) oa ta = Ok args ->
  Geometry.crop (fst (size c)) (snd (size c)) w_ratio h_ratio = Ok args.
Proof.
  intros A T B. unfold Geometry.crop, Geometry.aspects.
  rewrite A, T. exact B.
Qed.

Lemma letterbox_of_branch c oa ta canvas :
  int_truediv (fst (size c)) (snd (size c)) = Ok oa ->
  int_truediv w_ratio h_ratio = Ok ta ->
  Geometry.letterbox_branch (fst (size c)) (snd (size c)) oa ta = Ok canvas ->
  Geometry.letterbox (fst (size c)) (snd (size c)) w_ratio h_ratio = Ok canvas.
Proof.
  intros A T B. unfold Geometry.letterbox, Geometry.aspects.
  rewrite A, T. exact B.
Qed.

Ltac close_round :=
  repeat answer_call;
  repeat (constructor; [cbn; auto 10|]); try constructor.

Lemma iteration_calls filename l s :
  Forall (ok filename) (trace E (round_of filename l) s).
Proof.
  unfold round_of, ok, trace. destruct l as [cv nv]. unfold_run.
  destruct (respond E bool (os_path_isfile (path_join folder_path filename)) s)
    as [b s1]; unfold_run.
  constructor; [reflexivity|].
  destruct (b && is_video_name filename) eqn:Q; unfold_run; [|constructor].
  apply andb_true_iff in Q. destruct Q as [_ Q].
  destruct (respond E (result clip)
              (VideoFileClip (path_join folder_path filename)) s1)
    as [[c|e0] s2]; unfold_run.
  - constructor; [split; [reflexivity|exact Q]|].
    destruct (int_truediv (fst (size c)) (snd (size c))) as [oa|e1] eqn:EA;
      unfold_run.
    + destruct (int_truediv w_ratio h_ratio) as [ta|e2] eqn:ET; unfold_run.
      * destruct (conversion_method =? "crop") eqn:MC; unfold_run.
        { apply String.eqb_eq in MC.
          answer_call.
          constructor; [exact I|].
          destruct (Geometry.crop_branch (fst (size c)) (snd (size c)) oa ta)
            as [args|e3] eqn:EB; unfold_run.
          - pose proof (crop_of_branch c oa ta args EA ET EB) as G.
            destruct (respond E (result new_clip) (clip_crop c args) s0)
              as [[nc|e4] s3]; unfold_run;
              (constructor; [split; [exact MC|exact G]|]).
            + answer_call. constructor; [exact I|].
              destruct (respond E (result unit)
                          (write_videofile nc
                             (path_join output_path
                                (fst (splitext filename) ++ output_suffix
                                   ++ snd (splitext filename)))
                             "mpeg4" "medium" (fps c)) s4)
                as [[[]|e5] s5]; unfold_run;
                (constructor; [cbn; unfold new_file_path; auto 10|]);
                close_round.
            + close_round.
          - close_round. }
        destruct (conversion_method =? "letterbox") eqn:ML; unfold_run.
        { apply String.eqb_eq in ML.
          answer_call.
          constructor; [exact I|].
          destruct (Geometry.letterbox_branch (fst (size c)) (snd (size c)) oa ta)
            as [canvas|e3] eqn:EB; unfold_run.
          - pose proof (letterbox_of_branch c oa ta canvas EA ET EB) as G.
            destruct (respond E (result new_clip)
                        (composite_on_color c canvas (0, 0, 0)%Z "center") s0)
              as [[nc|e4] s3]; unfold_run;
              (constructor; [cbn; auto 10|]).
            + answer_call. constructor; [exact I|].
              destruct (respond E (result unit)
                          (write_videofile nc
                             (path_join output_path
                                (fst (splitext filename) ++ output_suffix
                                   ++ snd (splitext filename)))
                             "mpeg4" "medium" (fps c)) s4)
                as [[[]|e5] s5]; unfold_run;
                (constructor; [cbn; unfold new_file_path; auto 10|]);
                close_round.
            + close_round.
          - close_round. }
        close_round.
      * destruct nv as [[nc|]|]; unfold_run; close_round.
    + destruct nv as [[nc|]|]; unfold_run; close_round.
  - constructor; [split; [reflexivity|exact Q]|].
    destruct cv as [c0|]; destruct nv as [[nc|]|]; unfold_run; close_round.
Qed.

Lemma for_each_calls filenames l s :
  Forall (fun e => exists filename, In filename filenames /\ ok filename e)
    (trace E (loop filenames l) s).
Proof.
  unfold loop. revert l s. induction filenames as [|f rest IH]; intros l s.
  - constructor.
  - rewrite trace_for_each_cons. apply Forall_app. split.
    + eapply Forall_impl; [|apply iteration_calls].
      intros e H. exists f. split; [left; reflexivity|exact H].
    + eapply Forall_impl; [|apply IH].
      intros e (f' & I & H). exists f'. split; [right; exact I|exact H].
Qed.

End Loop.

(** The run up to the loop, when the folder exists and the ratio parses. *)
Lemma trace_convert_ok (E : environment) (s : world E)
    folder_path output_path target_aspect_ratio conversion_method
    output_suffix w_ratio h_ratio :
  parse_ratio target_aspect_ratio = Ok (w_ratio, h_ratio) ->
  answer E (os_path_isdir folder_path) s = true ->
  exists header filenames l s',
    trace E (convert_videos_in_folder true folder_path output_path
               target_aspect_ratio conversion_method output_suffix) s
    = (header ++ Ev (os_listdir folder_path) filenames
         :: trace E (for_each folder_path output_path conversion_method
                       output_suffix w_ratio h_ratio filenames l) s')%list
    /\ Forall (fun e => is_file_work e = false /\ is_error e = false
                        /\ is_scan e = false) header.
Proof.
  intros P D. unfold convert_videos_in_folder. rewrite P.
  unfold answer, trace in *. cbn [negb].
  cbn [exec pbind perform fst snd].
  destruct (respond E bool (os_path_isdir folder_path) s) as [d s1].
  cbn in D. subst d. cbn [negb exec pbind perform fst snd].
  destruct (respond E bool (os_path_exists output_path) s1) as [[] s2];
    cbn [negb exec pbind perform fst snd].
  - destruct (respond E unit (print (msg_processing_folder folder_path)) s2)
      as [[] s3]; cbn [negb exec pbind perform fst snd].
    destruct (respond E (list string) (os_listdir folder_path) s3) as [fs s4];
      cbn [negb exec pbind perform fst snd].
    eexists [_; _; _], fs, no_locals, s4. split; [reflexivity|].
    repeat constructor.
  - destruct (respond E unit (print (msg_creating_output output_path)) s2)
      as [[] s3]; cbn [negb exec pbind perform fst snd].
    destruct (respond E unit (os_makedirs output_path) s3)
      as [[] s4]; cbn [negb exec pbind perform fst snd].
    destruct (respond E unit (print (msg_processing_folder folder_path)) s4)
      as [[] s5]; cbn [negb exec pbind perform fst snd].
    destruct (respond E (list string) (os_listdir folder_path) s5) as [fs s6];
      cbn [negb exec pbind perform fst snd].
    eexists [_; _; _; _; _], fs, no_locals, s6. split; [reflexivity|].
    repeat constructor.
Qed.

End CallFacts.

Import Python Binary64 Stated.
Import Text Tool Run Calls RunFacts LoopFacts CallFacts.
Local Open Scope string_scope.

(** Every run is a few calls of set-up followed by the rounds of the loop. *)
Lemma trace_convert_parts (E : environment) (s : world E) (MOVIEPY_INSTALLED : bool)
    folder_path output_path target_aspect_ratio conversion_method output_suffix :
  exists header body,
    trace E (convert_videos_in_folder MOVIEPY_INSTALLED folder_path output_path
               target_aspect_ratio conversion_method output_suffix) s
    = (header ++ body)%list
    /\ Forall (fun e => is_setup e = true) header
    /\ forall w_ratio h_ratio,
         parse_ratio target_aspect_ratio = Ok (w_ratio, h_ratio) ->
         Forall (fun e => exists filename,
                    call_as_computed folder_path output_path conversion_method
                      output_suffix w_ratio h_ratio filename e) body.
Proof.
  unfold convert_videos_in_folder.
  destruct MOVIEPY_INSTALLED; cbn [negb];
    [|exists [], []; repeat split; constructor].
  unfold trace. cbn [exec pbind perform fst snd].
  destruct (respond E bool (os_path_isdir folder_path) s) as [[] s1];
    cbn [negb exec pbind perform fst snd]; cycle 1.
  { destruct (respond E unit (print (msg_input_missing folder_path)) s1) as [[] s2].
    cbn [exec fst snd]. eexists [_; _], []. repeat split; repeat constructor. }
  assert (K' : forall filenames l s' w_ratio h_ratio,
    parse_ratio target_aspect_ratio = Ok (w_ratio, h_ratio) ->
    Forall (fun e => exists filename,
               call_as_computed folder_path output_path conversion_method
                 output_suffix w_ratio h_ratio filename e)
      (trace E (for_each folder_path output_path conversion_method
                  output_suffix w_ratio h_ratio filenames l) s')).
  { intros fs l s' w h Q. eapply Forall_impl; [|apply for_each_calls].
    intros e (f & _ & H). exists f. exact H. }
  destruct (respond E bool (os_path_exists output_path) s1) as [[] s2];
    cbn [negb exec pbind perform fst snd].
  - destruct (respond E unit (print (msg_processing_folder folder_path)) s2) as [[] s3].
    cbn [exec pbind perform fst snd].
    destruct (parse_ratio target_aspect_ratio) as [[w_ratio h_ratio]|e] eqn:P.
    + cbn [exec pbind perform fst snd].
      destruct (respond E (list string) (os_listdir folder_path) s3) as [fs s4].
      cbn [exec pbind perform fst snd].
      eexists [_; _; _; _], _. split; [reflexivity|]. split; [repeat constructor|].
      intros w h Q. injection Q as <- <-. apply (K' fs no_locals s4 _ _ eq_refl).
    + cbn [exec pbind perform fst snd].
      destruct (respond E unit (print msg_bad_ratio) s3) as [[] s4].
      cbn [exec fst snd]. eexists [_; _; _; _], []. split; [reflexivity|].
      split; [repeat constructor|]. intros w h Q. discriminate Q.
  - destruct (respond E unit (print (msg_creating_output output_path)) s2) as [[] s3].
    cbn [negb exec pbind perform fst snd].
    destruct (respond E unit (os_makedirs output_path) s3) as [[] s4].
    cbn [negb exec pbind perform fst snd].
    destruct (respond E unit (print (msg_processing_folder folder_path)) s4) as [[] s5].
    cbn [exec pbind perform fst snd].
    destruct (parse_ratio target_aspect_ratio) as [[w_ratio h_ratio]|e] eqn:P.
    + cbn [exec pbind perform fst snd].
      destruct (respond E (list string) (os_listdir folder_path) s5) as [fs s6].
      cbn [exec pbind perform fst snd].
      eexists [_; _; _; _; _; _], _. split; [reflexivity|]. split; [repeat constructor|].
      intros w h Q. injection Q as <- <-. apply (K' fs no_locals s6 _ _ eq_refl).
    + cbn [exec pbind perform fst snd].
      destruct (respond E unit (print msg_bad_ratio) s5) as [[] s6].
      cbn [exec fst snd]. eexists [_; _; _; _; _; _], []. split; [reflexivity|].
      split; [repeat constructor|]. intros w h Q. discriminate Q.
Qed.

(** C2 fails as stated: for a 2x98 clip and the ratio 1:49 the code computes
    [final_width = 0] where the exact formula gives 2. *)
Lemma letterbox_is_not_exact :
  Geometry.letterbox 2 98 1 49 = Ok (0, 98)%Z
  /\ Exact.letterbox 2 98 1 49 = (2, 98)%Z
  /\ ~ letterbox_as_specified 2 98 1 49.
Proof.
  assert (E : Geometry.letterbox 2 98 1 49 = Ok (0, 98)%Z)
    by (vm_compute; reflexivity).
  split; [exact E|]. split; [vm_compute; reflexivity|].
  unfold letterbox_as_specified. rewrite E.
  change (Exact.letterbox 2 98 1 49) with (2, 98)%Z. discriminate.
Qed.

(** C2 (amended): the letterbox computation is the specification's formula
    evaluated in binary64 arithmetic. With [original_aspect] and
    [target_aspect] the doubles nearest to width/height and
    w_ratio/h_ratio: if [original_aspect > target_aspect] the width is kept
    and [final_height = int(width / target_aspect)] decremented by 1 if odd;
    otherwise the height is kept and
    [final_width = int(height * target_aspect)] decremented by 1 if odd. In
    every run, each composite call carries that canvas for its clip, the
    colour (0, 0, 0) and the position "center". *)
Theorem letterbox_in_binary64 (width height w_ratio h_ratio : Z) :
  (0 < width)%Z -> (0 < height)%Z -> (0 < w_ratio)%Z -> (0 < h_ratio)%Z ->
  Geometry.letterbox width height w_ratio h_ratio
  = (original_aspect <- int_truediv width height ;;
     target_aspect <- int_truediv w_ratio h_ratio ;;
     if float_gt original_aspect target_aspect then
       p <- int_div_float width target_aspect ;;
       n <- int_of_float p ;;
       Ok (width, Exact.decrement_if_odd n)
     else
       p <- int_mul_float height target_aspect ;;
       n <- int_of_float p ;;
       Ok (Exact.decrement_if_odd n, height))%py
  /\ forall (E : environment) (s : world E) MOVIEPY_INSTALLED folder_path
       output_path target_aspect_ratio conversion_method output_suffix,
       parse_ratio target_aspect_ratio = Ok (w_ratio, h_ratio) ->
       Forall (composite_as_computed w_ratio h_ratio)
         (trace E (convert_videos_in_folder MOVIEPY_INSTALLED folder_path
                     output_path target_aspect_ratio conversion_method
                     output_suffix) s).
Proof.
  intros _ _ _ _. split; [apply letterbox_unfolded|].
  intros E s M fp op tar cm os P.
  destruct (trace_convert_parts E s M fp op tar cm os) as (header & body & -> & H & B).
  apply Forall_app. split.
  - eapply Forall_impl; [|exact H]. intros [R c r] S.
    destruct c; try exact I; discriminate S.
  - eapply Forall_impl; [|exact (B _ _ P)]. intros [R c r] (f & C).
    destruct c; try exact I. cbn in C |- *. tauto.
Qed.

Lemma letterbox_in_binary64_witness :
  Forall (composite_as_computed 9 16)
    (trace (sample ["a.mp4"] (fun _ => Ok (1920, 1080)%Z))
       (convert_videos_in_folder true "work_place" "output_place" "9:16"
          "letterbox" "_Shorts")
       ["work_place"]).
Proof.
  refine (proj2 (letterbox_in_binary64 1920 1080 9 16 _ _ _ _)
            (sample ["a.mp4"] (fun _ => Ok (1920, 1080)%Z)) ["work_place"] true
            "work_place" "output_place" "9:16" "letterbox" "_Shorts" _);
    reflexivity.
Defined.

(** C8: for every conversion method other than "crop" and "letterbox", in a
    run that reaches the loop each listed name is handled in turn. For a
    video file the clip is opened and exactly one message follows: the
    invalid-method message whenever the clip opens and the two aspects are
    computed, the message of the exception if opening the clip or
    computing an aspect raised. After it only [close] calls are made:
    nothing is written for the file, and the loop goes on with the next
    name. *)
Theorem invalid_method_skips_every_file
    (E : environment) (s : world E)
    (folder_path output_path target_aspect_ratio : string)
    (conversion_method output_suffix : string) (w_ratio h_ratio : Z) :
  conversion_method <> "crop" -> conversion_method <> "letterbox" ->
  parse_ratio target_aspect_ratio = Ok (w_ratio, h_ratio) ->
  answer E (os_path_isdir folder_path) s = true ->
  exists header filenames segments,
    trace E (convert_videos_in_folder true folder_path output_path
               target_aspect_ratio conversion_method output_suffix) s
    = (header ++ Ev (os_listdir folder_path) filenames :: List.concat segments)%list
    /\ Forall (fun e => is_file_work e = false /\ is_error e = false
                        /\ is_scan e = false) header
    /\ Forall2 (file_skipped folder_path conversion_method w_ratio h_ratio)
         filenames segments.
Proof.
  intros NC NL P D.
  destruct (trace_convert_ok E s folder_path output_path target_aspect_ratio
              conversion_method output_suffix w_ratio h_ratio P D)
    as (header & filenames & l & s' & -> & H).
  destruct (for_each_invalid_method E folder_path output_path conversion_method
              output_suffix w_ratio h_ratio filenames NC NL l s')
    as (segments & -> & F).
  exists header, filenames, segments. auto.
Qed.

Lemma invalid_method_skips_every_file_witness :
  exists header filenames segments,
    trace (sample ["a.mp4"; "notes.txt"] (fun _ => Ok (1920, 1080)%Z))
      (convert_videos_in_folder true "work_place" "output_place" "9:16"
         "zoom" "_Shorts")
      ["work_place"]
    = (header ++ Ev (os_listdir "work_place") filenames :: List.concat segments)%list
    /\ Forall (fun e => is_file_work e = false /\ is_error e = false
                        /\ is_scan e = false) header
    /\ Forall2 (file_skipped "work_place" "zoom" 9 16) filenames segments.
Proof.
  refine (invalid_method_skips_every_file
            (sample ["a.mp4"; "notes.txt"] (fun _ => Ok (1920, 1080)%Z))
            ["work_place"] "work_place" "output_place" "9:16" "zoom" "_Shorts"
            9 16 _ _ _ _); try reflexivity; discriminate.
Defined.

Import Python Binary64 Stated.
Import Text Tool Run Calls Observe RunFacts LoopFacts CallFacts.
Local Open Scope string_scope.

(** ** What a run asks of moviepy and of the file system *)

Lemma run_event (E : environment) (s : world E) (MOVIEPY_INSTALLED : bool)
    folder_path output_path target_aspect_ratio conversion_method output_suffix
    w_ratio h_ratio e :
  parse_ratio target_aspect_ratio = Ok (w_ratio, h_ratio) ->
  In e (trace E (convert_videos_in_folder MOVIEPY_INSTALLED folder_path
                   output_path target_aspect_ratio conversion_method
                   output_suffix) s) ->
  is_setup e = true
  \/ exists filename,
       call_as_computed folder_path output_path conversion_method
         output_suffix w_ratio h_ratio filename e.
Proof.
  intros P I.
  destruct (trace_convert_parts E s MOVIEPY_INSTALLED folder_path output_path
              target_aspect_ratio conversion_method output_suffix)
    as (header & body & T & H & B).
  rewrite T in I. apply in_app_or in I. destruct I as [I|I].
  - left. rewrite Forall_forall in H. apply H, I.
  - right. specialize (B _ _ P). rewrite Forall_forall in B. apply B, I.
Qed.

(** X3: in every run, each [clip.crop] call is made under the method "crop"
    with exactly the arguments the crop computation gives for the size of
    its clip and the parsed ratio. *)
Theorem crop_calls_carry_the_computation
    (E : environment) (s : world E) (MOVIEPY_INSTALLED : bool)
    (folder_path output_path target_aspect_ratio : string)
    (conversion_method output_suffix : string) (w_ratio h_ratio : Z)
    (c : clip) (args : Geometry.crop_call) (r : result new_clip) :
  parse_ratio target_aspect_ratio = Ok (w_ratio, h_ratio) ->
  In (Ev (clip_crop c args) r)
     (trace E (convert_videos_in_folder MOVIEPY_INSTALLED folder_path
                 output_path target_aspect_ratio conversion_method
                 output_suffix) s) ->
  conversion_method = "crop"
  /\ Geometry.crop (fst (size c)) (snd (size c)) w_ratio h_ratio = Ok args.
Proof.
  intros P I.
  destruct (run_event _ _ _ _ _ _ _ _ _ _ _ P I) as [S|(f & C)].
  - discriminate S.
  - exact C.
Qed.

(** X4: in every run, each [write_videofile] call is made under one of the
    two valid methods, with codec "mpeg4" and preset "medium", to the path
    [output_path] joined with stem + suffix + extension of a name that ends
    in .mp4, .mov or .avi (in any case). *)
Theorem writes_go_to_the_output_folder
    (E : environment) (s : world E) (MOVIEPY_INSTALLED : bool)
    (folder_path output_path target_aspect_ratio : string)
    (conversion_method output_suffix : string) (w_ratio h_ratio : Z)
    (nc : new_clip) (path codec preset : string) (rate : pyfloat)
    (r : result unit) :
  parse_ratio target_aspect_ratio = Ok (w_ratio, h_ratio) ->
  In (Ev (write_videofile nc path codec preset rate) r)
     (trace E (convert_videos_in_folder MOVIEPY_INSTALLED folder_path
                 output_path target_aspect_ratio conversion_method
                 output_suffix) s) ->
  (exists filename,
     is_video_name filename = true
     /\ path = path_join output_path
                 (fst (splitext filename) ++ output_suffix
                    ++ snd (splitext filename)))
  /\ codec = "mpeg4" /\ preset = "medium"
  /\ (conversion_method = "crop" \/ conversion_method = "letterbox").
Proof.
  intros P I.
  destruct (run_event _ _ _ _ _ _ _ _ _ _ _ P I) as [S|(f & C)].
  - discriminate S.
  - cbn in C. destruct C as (C1 & C2 & C3 & C4 & C5).
    split; [exists f; split; assumption|auto].
Qed.

(** X5: in every run, the only files opened with [VideoFileClip] are entries
    of the input folder whose name ends in .mp4, .mov or .avi (in any
    case). *)
Theorem only_video_names_are_opened
    (E : environment) (s : world E) (MOVIEPY_INSTALLED : bool)
    (folder_path output_path target_aspect_ratio : string)
    (conversion_method output_suffix : string) (w_ratio h_ratio : Z)
    (path : string) (r : result clip) :
  parse_ratio target_aspect_ratio = Ok (w_ratio, h_ratio) ->
  In (Ev (VideoFileClip path) r)
     (trace E (convert_videos_in_folder MOVIEPY_INSTALLED folder_path
                 output_path target_aspect_ratio conversion_method
                 output_suffix) s) ->
  exists filename,
    path = path_join folder_path filename /\ is_video_name filename = true.
Proof.
  intros P I.
  destruct (run_event _ _ _ _ _ _ _ _ _ _ _ P I) as [S|(f & C)].
  - discriminate S.
  - exists f. exact C.
Qed.

Ltac find_event := vm_compute; repeat (first [left; reflexivity | right]).

Lemma crop_calls_carry_the_computation_witness :
  "crop" = "crop"
  /\ Geometry.crop 1920 1080 1 1
     = Ok (Geometry.crop_x (Finite (960 * 2 ^ 1074)) 1080).
Proof.
  refine (crop_calls_carry_the_computation
            (sample ["a.mp4"] (fun _ => Ok (1920, 1080)%Z)) ["work_place"] true
            "work_place" "output_place" "1:1" "crop" "_Shorts" 1 1
            sample_clip (Geometry.crop_x (Finite (960 * 2 ^ 1074)) 1080)
            (Ok 1%nat) _ _).
  - reflexivity.
  - find_event.
Defined.

Lemma writes_go_to_the_output_folder_witness :
  (exists filename,
     is_video_name filename = true
     /\ "output_place/a_Shorts.mp4"
        = path_join "output_place"
            (fst (splitext filename) ++ "_Shorts" ++ snd (splitext filename)))
  /\ "mpeg4" = "mpeg4" /\ "medium" = "medium"
  /\ ("crop" = "crop" \/ "crop" = "letterbox").
Proof.
  refine (writes_go_to_the_output_folder
            (sample ["a.mp4"] (fun _ => Ok (1920, 1080)%Z)) ["work_place"] true
            "work_place" "output_place" "1:1" "crop" "_Shorts" 1 1
            1%nat "output_place/a_Shorts.mp4" "mpeg4" "medium" (Finite 0)
            (Ok tt) _ _).
  - reflexivity.
  - find_event.
Defined.

Lemma only_video_names_are_opened_witness :
  exists filename,
    "work_place/a.mp4" = path_join "work_place" filename
    /\ is_video_name filename = true.
Proof.
  refine (only_video_names_are_opened
            (sample ["a.mp4"] (fun _ => Ok (1920, 1080)%Z)) ["work_place"] true
            "work_place" "output_place" "1:1" "crop" "_Shorts" 1 1
            "work_place/a.mp4" (Ok sample_clip) _ _).
  - reflexivity.
  - find_event.
Defined.

Import Python Binary64 Stated.
Import Text Tool Run Calls Observe RunFacts LoopFacts CallFacts.
Local Open Scope string_scope.

(** ** The rounds of the loop *)

Module RoundFacts.

Lemma isfile_paths_app a b :
  isfile_paths (a ++ b)%list = (isfile_paths a ++ isfile_paths b)%list.
Proof.
  induction a as [|[R c r] a IH]; [reflexivity|].
  destruct c; cbn; rewrite IH; reflexivity.
Qed.

Lemma closes_follow_app a b :
  closes_follow a -> closes_follow b -> closes_follow (a ++ b)%list.
Proof.
  intros A B. induction a as [|[R c r] a IH]; [exact B|].
  destruct A as [O A]. split; [|apply IH, A].
  destruct c; try exact I; destruct r; try exact I;
    cbn in O |- *; apply in_or_app; left; exact O.
Qed.

Section Loop.
Variable E : environment.
Variables folder_path output_path conversion_method output_suffix : string.
Variables w_ratio h_ratio : Z.

Let round_of := iteration folder_path output_path conversion_method
                  output_suffix w_ratio h_ratio.
Let loop := for_each folder_path output_path conversion_method
              output_suffix w_ratio h_ratio.

Ltac run_round :=
  repeat first
    [ answer_call
    | match goal with
      | |- context [match ?x with Ok _ => _ | Raise _ => _ end] =>
          destruct x; unfold_run
      | |- context [if ?b then _ else _] => destruct b; unfold_run
      | |- context [match ?x with Some _ => _ | None => _ end] =>
          destruct x; unfold_run
      end ].

Lemma iteration_isfile filename l s :
  isfile_paths (trace E (round_of filename l) s)
  = [path_join folder_path filename].
Proof.
  unfold round_of, trace. destruct l as [cv nv]. unfold_run.
  destruct (respond E bool (os_path_isfile (path_join folder_path filename)) s)
    as [b s1]; unfold_run.
  destruct (b && is_video_name filename); unfold_run; [|reflexivity].
  destruct cv as [c0|]; destruct nv as [[nc0|]|]; run_round; reflexivity.
Qed.

Lemma iteration_closes filename l s :
  closes_follow (trace E (round_of filename l) s).
Proof.
  unfold round_of, trace. destruct l as [cv nv]. unfold_run.
  destruct (respond E bool (os_path_isfile (path_join folder_path filename)) s)
    as [b s1]; unfold_run.
  destruct (b && is_video_name filename); unfold_run; [|cbn; auto].
  destruct cv as [c0|]; destruct nv as [[nc0|]|]; run_round;
    cbn; repeat split; auto 12.
Qed.

Lemma for_each_isfile filenames l s :
  isfile_paths (trace E (loop filenames l) s)
  = map (path_join folder_path) filenames.
Proof.
  unfold loop. revert l s. induction filenames as [|f rest IH]; intros l s.
  - reflexivity.
  - rewrite trace_for_each_cons, isfile_paths_app, IH.
    fold round_of. rewrite iteration_isfile. reflexivity.
Qed.

Lemma for_each_closes filenames l s :
  closes_follow (trace E (loop filenames l) s).
Proof.
  unfold loop. revert l s. induction filenames as [|f rest IH]; intros l s.
  - exact I.
  - rewrite trace_for_each_cons. apply closes_follow_app.
    + apply iteration_closes.
    + apply IH.
Qed.

End Loop.

End RoundFacts.

Import Python Binary64 Stated.
Import Text Tool Run Calls Observe RunFacts LoopFacts CallFacts RoundFacts.
Local Open Scope string_scope.

(** Every run: set-up calls, then nothing, or the listing and the loop. *)
Lemma trace_convert_shape (E : environment) (s : world E) (MOVIEPY_INSTALLED : bool)
    folder_path output_path target_aspect_ratio conversion_method output_suffix :
  exists header body,
    trace E (convert_videos_in_folder MOVIEPY_INSTALLED folder_path output_path
               target_aspect_ratio conversion_method output_suffix) s
    = (header ++ body)%list
    /\ Forall (fun e => is_setup e = true) header
    /\ Forall (makedirs_needed E s MOVIEPY_INSTALLED folder_path output_path) header
    /\ isfile_paths header = []
    /\ (body = []
        \/ exists w_ratio h_ratio filenames s' front,
             parse_ratio target_aspect_ratio = Ok (w_ratio, h_ratio)
             /\ header = (front ++ [Ev (os_listdir folder_path) filenames])%list
             /\ body = trace E (for_each folder_path output_path
                                  conversion_method output_suffix w_ratio
                                  h_ratio filenames no_locals) s').
Proof.
  unfold convert_videos_in_folder, makedirs_needed, answer, after.
  destruct MOVIEPY_INSTALLED; cbn [negb];
    [|exists [], []; split; [reflexivity|]; split; [constructor|];
      split; [constructor|]; split; [reflexivity|]; left; reflexivity].
  unfold trace. cbn [exec pbind perform fst snd].
  destruct (respond E bool (os_path_isdir folder_path) s) as [[] s1];
    cbn [negb exec pbind perform fst snd]; cycle 1.
  { destruct (respond E unit (print (msg_input_missing folder_path)) s1) as [[] s2].
    cbn [exec fst snd]. eexists [_; _], [].
    split; [reflexivity|]. split; [repeat constructor|].
    split; [repeat constructor|]. split; [reflexivity|]. left; reflexivity. }
  destruct (respond E bool (os_path_exists output_path) s1) as [[] s2];
    cbn [negb exec pbind perform fst snd].
  - destruct (respond E unit (print (msg_processing_folder folder_path)) s2) as [[] s3].
    cbn [exec pbind perform fst snd].
    destruct (parse_ratio target_aspect_ratio) as [[w_ratio h_ratio]|e] eqn:P.
    + cbn [exec pbind perform fst snd].
      destruct (respond E (list string) (os_listdir folder_path) s3) as [fs s4].
      cbn [exec pbind perform fst snd].
      eexists [_; _; _; _], _. split; [reflexivity|].
      split; [repeat constructor|]. split; [repeat constructor|].
      split; [reflexivity|]. right.
      exists w_ratio, h_ratio, fs, s4. eexists [_; _; _].
      repeat split; reflexivity.
    + cbn [exec pbind perform fst snd].
      destruct (respond E unit (print msg_bad_ratio) s3) as [[] s4].
      cbn [exec fst snd]. eexists [_; _; _; _], []. split; [reflexivity|].
      split; [repeat constructor|]. split; [repeat constructor|].
      split; [reflexivity|]. left; reflexivity.
  - destruct (respond E unit (print (msg_creating_output output_path)) s2) as [[] s3].
    cbn [negb exec pbind perform fst snd].
    destruct (respond E unit (os_makedirs output_path) s3) as [[] s4].
    cbn [negb exec pbind perform fst snd].
    destruct (respond E unit (print (msg_processing_folder folder_path)) s4) as [[] s5].
    cbn [exec pbind perform fst snd].
    destruct (parse_ratio target_aspect_ratio) as [[w_ratio h_ratio]|e] eqn:P.
    + cbn [exec pbind perform fst snd].
      destruct (respond E (list string) (os_listdir folder_path) s5) as [fs s6].
      cbn [exec pbind perform fst snd].
      eexists [_; _; _; _; _; _], _. split; [reflexivity|].
      split; [repeat constructor|]. split; [repeat (constructor; cbn; auto)|].
      split; [reflexivity|]. right.
      exists w_ratio, h_ratio, fs, s6. eexists [_; _; _; _; _].
      repeat split; reflexivity.
    + cbn [exec pbind perform fst snd].
      destruct (respond E unit (print msg_bad_ratio) s5) as [[] s6].
      cbn [exec fst snd]. eexists [_; _; _; _; _; _], []. split; [reflexivity|].
      split; [repeat constructor|]. split; [repeat (constructor; cbn; auto)|].
      split; [reflexivity|]. left; reflexivity.
Qed.

Lemma closes_follow_setup header :
  Forall (fun e => is_setup e = true) header -> closes_follow header.
Proof.
  induction 1 as [|[R c r] rest S _ IH]; [exact I|].
  split; [|exact IH]. destruct c; try exact I; discriminate S.
Qed.

Lemma isfile_paths_no_file_work header :
  Forall (fun e => is_file_work e = false /\ is_error e = false
                   /\ is_scan e = false) header ->
  isfile_paths header = [] /\ Forall (fun e => is_scan e = false) header.
Proof.
  induction 1 as [|[R c r] rest (W & _ & S) _ (IH1 & IH2)]; [split; constructor|].
  split; [|constructor; assumption].
  destruct c; try exact IH1; discriminate W.
Qed.

(** X6: in a run that reaches the loop, the names [os.listdir] returned are
    tested with [os.path.isfile] once each, in the order of the listing,
    whatever happens in the rounds: an exception in one round does not stop
    the loop. *)
Theorem every_listed_name_is_visited
    (E : environment) (s : world E)
    (folder_path output_path target_aspect_ratio : string)
    (conversion_method output_suffix : string) (w_ratio h_ratio : Z) :
  parse_ratio target_aspect_ratio = Ok (w_ratio, h_ratio) ->
  answer E (os_path_isdir folder_path) s = true ->
  exists header filenames rest,
    trace E (convert_videos_in_folder true folder_path output_path
               target_aspect_ratio conversion_method output_suffix) s
    = (header ++ Ev (os_listdir folder_path) filenames :: rest)%list
    /\ Forall (fun e => is_scan e = false) header
    /\ isfile_paths header = []
    /\ isfile_paths rest = map (path_join folder_path) filenames.
Proof.
  intros P D.
  destruct (trace_convert_ok E s folder_path output_path target_aspect_ratio
              conversion_method output_suffix w_ratio h_ratio P D)
    as (header & filenames & l & s' & T & H).
  destruct (isfile_paths_no_file_work header H) as [HI HS].
  exists header, filenames. eexists. split; [exact T|].
  split; [exact HS|]. split; [exact HI|]. apply for_each_isfile.
Qed.

Lemma every_listed_name_is_visited_witness :
  exists header filenames rest,
    trace (sample ["a.mp4"; "notes.txt"] (fun _ => Raise (LibraryError 0)))
      (convert_videos_in_folder true "work_place" "output_place" "9:16"
         "crop" "_Shorts")
      ["work_place"]
    = (header ++ Ev (os_listdir "work_place") filenames :: rest)%list
    /\ Forall (fun e => is_scan e = false) header
    /\ isfile_paths header = []
    /\ isfile_paths rest = map (path_join "work_place") filenames.
Proof.
  refine (every_listed_name_is_visited
            (sample ["a.mp4"; "notes.txt"] (fun _ => Raise (LibraryError 0)))
            ["work_place"] "work_place" "output_place" "9:16" "crop" "_Shorts"
            9 16 _ _); reflexivity.
Defined.

(** X7: in every run, each clip that [VideoFileClip] returned is closed
    later in the run, and so is each transformed clip that [clip.crop] or
    the composite returned, whether the round ends normally or by an
    exception. *)
Theorem opened_clips_are_closed
    (E : environment) (s : world E) (MOVIEPY_INSTALLED : bool)
    (folder_path output_path target_aspect_ratio : string)
    (conversion_method output_suffix : string) :
  closes_follow
    (trace E (convert_videos_in_folder MOVIEPY_INSTALLED folder_path
                output_path target_aspect_ratio conversion_method
                output_suffix) s).
Proof.
  destruct (trace_convert_shape E s MOVIEPY_INSTALLED folder_path output_path
              target_aspect_ratio conversion_method output_suffix)
    as (header & body & -> & S & _ & _ & B).
  apply closes_follow_app; [apply closes_follow_setup, S|].
  destruct B as [->|(w & h & fs & s' & front & _ & _ & ->)]; [exact I|].
  apply for_each_closes.
Qed.

(** X8: the output directory is created only when it is needed: a
    [makedirs] call of a run is of the output path, and it occurs only with
    moviepy available, the input folder present and the output path
    absent. *)
Theorem makedirs_only_when_needed
    (E : environment) (s : world E) (MOVIEPY_INSTALLED : bool)
    (folder_path output_path target_aspect_ratio : string)
    (conversion_method output_suffix : string) :
  Forall (makedirs_needed E s MOVIEPY_INSTALLED folder_path output_path)
    (trace E (convert_videos_in_folder MOVIEPY_INSTALLED folder_path
                output_path target_aspect_ratio conversion_method
                output_suffix) s).
Proof.
  destruct (trace_convert_shape E s MOVIEPY_INSTALLED folder_path output_path
              target_aspect_ratio conversion_method output_suffix)
    as (header & body & -> & _ & M & _ & B).
  apply Forall_app. split; [exact M|].
  destruct B as [->|(w & h & fs & s' & front & _ & _ & ->)]; [constructor|].
  eapply Forall_impl; [|apply for_each_calls].
  intros [R c r] (f & _ & C). destruct c; try exact I. destruct C.
Qed.

Import Python Binary64 Stated.
Import Text Tool Run Calls Observe RunFacts LoopFacts CallFacts RoundFacts.
Local Open Scope string_scope.

(** X9: an entry that is not a regular file, or whose name does not end in
    .mp4, .mov or .avi, costs one [isfile] test and nothing else: no
    moviepy call, no message, and the locals are unchanged. *)
Theorem other_entries_are_left_alone
    (E : environment) (s : world E)
    (folder_path output_path conversion_method output_suffix : string)
    (w_ratio h_ratio : Z) (filename : string) (l : locals) :
  answer E (os_path_isfile (path_join folder_path filename)) s = false
  \/ is_video_name filename = false ->
  exec E (iteration folder_path output_path conversion_method output_suffix
            w_ratio h_ratio filename l) s
  = ([Ev (os_path_isfile (path_join folder_path filename))
        (answer E (os_path_isfile (path_join folder_path filename)) s)],
     l,
     after E (os_path_isfile (path_join folder_path filename)) s).
Proof.
  intros H. unfold answer, after in *. unfold_run.
  destruct (respond E bool (os_path_isfile (path_join folder_path filename)) s)
    as [b s1]. cbn [fst snd] in *.
  assert (Q : b && is_video_name filename = false).
  { destruct H as [-> | ->]; [reflexivity|apply andb_false_r]. }
  rewrite Q. reflexivity.
Qed.

Lemma other_entries_are_left_alone_witness :
  exec (sample ["notes.txt"] (fun _ => Ok (1920, 1080)%Z))
    (iteration "work_place" "output_place" "crop" "_Shorts" 9 16 "notes.txt"
       no_locals) ["work_place"]
  = ([Ev (os_path_isfile "work_place/notes.txt") true], no_locals, ["work_place"]).
Proof.
  refine (other_entries_are_left_alone
            (sample ["notes.txt"] (fun _ => Ok (1920, 1080)%Z)) ["work_place"]
            "work_place" "output_place" "crop" "_Shorts" 9 16 "notes.txt"
            no_locals _).
  right. reflexivity.
Defined.

(** X10: the locals [clip] and [new_clip] outlive a round. When opening a
    video raises in a later round, the handler reports the file and the
    [finally] closes again the clip (and the transformed clip, if any) that
    an earlier round left bound. *)
Theorem failed_open_closes_the_earlier_clip
    (E : environment) (s : world E)
    (folder_path output_path conversion_method output_suffix : string)
    (w_ratio h_ratio : Z) (filename : string)
    (earlier : clip) (nv : option (option new_clip)) (e : exn) :
  answer E (os_path_isfile (path_join folder_path filename)) s = true ->
  is_video_name filename = true ->
  answer E (VideoFileClip (path_join folder_path filename))
    (after E (os_path_isfile (path_join folder_path filename)) s) = Raise e ->
  trace E (iteration folder_path output_path conversion_method output_suffix
             w_ratio h_ratio filename
             {| clip_var := Some earlier; new_clip_var := nv |}) s
  = ([Ev (os_path_isfile (path_join folder_path filename)) true;
      Ev (VideoFileClip (path_join folder_path filename)) (Raise e);
      printed (msg_file_error filename e);
      Ev (clip_close earlier) tt]
       ++ match nv with
          | Some (Some nc) => [Ev (new_clip_close nc) tt]
          | _ => []
          end)%list.
Proof.
  intros F V L. unfold answer, after, trace in *. unfold_run.
  destruct (respond E bool (os_path_isfile (path_join folder_path filename)) s)
    as [b s1]. cbn [fst snd] in *. subst b. rewrite V. cbn [andb]. unfold_run.
  destruct (respond E (result clip)
              (VideoFileClip (path_join folder_path filename)) s1) as [r s2].
  cbn [fst snd] in *. subst r. unfold_run.
  repeat answer_call.
  destruct nv as [[nc|]|]; unfold_run; repeat answer_call; reflexivity.
Qed.

Lemma failed_open_closes_the_earlier_clip_witness :
  trace (sample ["b.mp4"] (fun _ => Raise (LibraryError 7)))
    (iteration "work_place" "output_place" "crop" "_Shorts" 9 16 "b.mp4"
       {| clip_var := Some sample_clip; new_clip_var := Some (Some 1%nat) |})
    ["work_place"]
  = [Ev (os_path_isfile "work_place/b.mp4") true;
     Ev (VideoFileClip "work_place/b.mp4") (Raise (LibraryError 7));
     printed (msg_file_error "b.mp4" (LibraryError 7));
     Ev (clip_close sample_clip) tt;
     Ev (new_clip_close 1%nat) tt].
Proof.
  refine (failed_open_closes_the_earlier_clip
            (sample ["b.mp4"] (fun _ => Raise (LibraryError 7))) ["work_place"]
            "work_place" "output_place" "crop" "_Shorts" 9 16 "b.mp4"
            sample_clip (Some (Some 1%nat)) (LibraryError 7) _ _ _);
    reflexivity.
Defined.

(** ** Strings *)

Module TextFacts.

Lemma take_drop n s : take n s ++ drop n s = s.
Proof.
  revert s. induction n as [|n IH]; intros [|c s]; cbn; try reflexivity.
  rewrite IH. reflexivity.
Qed.

Lemma append_empty s : s ++ "" = s.
Proof. induction s as [|c s IH]; cbn; [reflexivity|rewrite IH; reflexivity]. Qed.

Lemma digits_all_digits s acc :
  all_digits s = true -> digits s true acc = Ok (decimal_value s acc).
Proof.
  revert acc. induction s as [|c s IH]; intros acc H; [reflexivity|].
  cbn in H. apply andb_true_iff in H. destruct H as [D A].
  cbn [digits decimal_value]. rewrite D. apply IH, A.
Qed.

Lemma digit_not_space c : is_digit c = true -> is_space c = false.
Proof.
  unfold is_digit, is_space. intros H.
  apply andb_true_iff in H. destruct H as [A B].
  apply Nat.leb_le in A, B.
  destruct (Nat.eqb_spec (nat_of_ascii c) 32); [lia|].
  destruct (Nat.leb_spec 9 (nat_of_ascii c)); [|reflexivity].
  destruct (Nat.leb_spec (nat_of_ascii c) 13); [lia|reflexivity].
Qed.

Lemma digit_count_le_length s : (digit_count s <= String.length s)%nat.
Proof.
  induction s as [|c s IH]; [apply le_n|].
  cbn [digit_count String.length]. destruct (is_digit c); lia.
Qed.

(** [int] reads a plain decimal numeral of at most 4300 digits as its
    value. *)
Lemma int_of_string_decimal s :
  s <> "" -> (String.length s <= 4300)%nat -> all_digits s = true ->
  int_of_string s = Ok (decimal_value s 0).
Proof.
  intros N B A. unfold int_of_string.
  assert (Q : Nat.ltb max_str_digits (digit_count s) = false).
  { apply Nat.ltb_ge. unfold max_str_digits.
    pose proof (digit_count_le_length s). lia. }
  rewrite Q. clear Q B.
  destruct s as [|c s]; [congruence|].
  pose proof A as A'. cbn in A'. apply andb_true_iff in A'. destruct A' as [D A'].
  cbn [lstrip]. rewrite (digit_not_space c D).
  assert (G : digits (String c s) false 0 = Ok (decimal_value (String c s) 0)).
  { cbn [digits decimal_value]. rewrite D. apply digits_all_digits, A'. }
  destruct c as [[] [] [] [] [] [] [] []]; try discriminate D; exact G.
Qed.

Lemma digit_not_colon c : is_digit c = true -> Ascii.eqb c ":" = false.
Proof.
  destruct c as [[] [] [] [] [] [] [] []]; intros D; try discriminate D; reflexivity.
Qed.

Lemma split_digits s : all_digits s = true -> split ":" s = [s].
Proof.
  induction s as [|c s IH]; [reflexivity|].
  cbn. intros H. apply andb_true_iff in H. destruct H as [D A].
  rewrite (digit_not_colon c D), (IH A). reflexivity.
Qed.

Lemma split_ratio sw sh :
  all_digits sw = true -> all_digits sh = true ->
  split ":" (sw ++ ":" ++ sh) = [sw; sh].
Proof.
  intros A B. induction sw as [|c s IH].
  - cbn. rewrite (split_digits sh B). reflexivity.
  - cbn in A. apply andb_true_iff in A. destruct A as [D A].
    cbn. rewrite (digit_not_colon c D).
    cbn in IH. rewrite (IH A). reflexivity.
Qed.

Lemma split_length c s : List.length (split c s) = S (count c s).
Proof.
  induction s as [|c' s IH]; [reflexivity|].
  cbn. destruct (Ascii.eqb c' c).
  - cbn. rewrite IH. reflexivity.
  - destruct (split c s) as [|p r]; cbn in *; congruence.
Qed.

End TextFacts.
Import TextFacts.

(** X11: [os.path.splitext] only cuts: stem and extension put together
    again give the name. Hence with an empty suffix the file is written
    under its own name in the output folder. *)
Theorem splitext_recomposes (p : string) :
  fst (splitext p) ++ snd (splitext p) = p
  /\ forall output_path,
       new_file_path output_path "" p = path_join output_path p.
Proof.
  assert (R : fst (splitext p) ++ snd (splitext p) = p).
  { unfold splitext.
    destruct (rfind "/" p <? rfind "." p)%Z; [|apply append_empty].
    destruct (all_dots _); [apply append_empty|apply take_drop]. }
  split; [exact R|].
  intros output_path. unfold new_file_path. cbn [append]. rewrite R. reflexivity.
Qed.

(** X12: a ratio written as two plain decimal numerals of at most 4300
    digits each around a colon is accepted exactly when both numbers are
    positive, and is read as these two numbers. *)
Theorem parse_ratio_decimal (sw sh : string) :
  sw <> "" -> sh <> "" ->
  (String.length sw <= 4300)%nat -> (String.length sh <= 4300)%nat ->
  all_digits sw = true -> all_digits sh = true ->
  parse_ratio (sw ++ ":" ++ sh)
  = if ((0 <? decimal_value sw 0) && (0 <? decimal_value sh 0))%Z
    then Ok (decimal_value sw 0, decimal_value sh 0)
    else Raise ValueError.
Proof.
  intros Nw Nh Bw Bh Aw Ah. unfold parse_ratio.
  rewrite (split_ratio sw sh Aw Ah).
  rewrite (int_of_string_decimal sw Nw Bw Aw), (int_of_string_decimal sh Nh Bh Ah).
  cbn [Python.bind].
  destruct (Z.leb_spec (decimal_value sw 0) 0);
    destruct (Z.leb_spec (decimal_value sh 0) 0);
    destruct (Z.ltb_spec 0 (decimal_value sw 0));
    destruct (Z.ltb_spec 0 (decimal_value sh 0)); try lia; reflexivity.
Qed.

Lemma parse_ratio_decimal_witness :
  parse_ratio ("16" ++ ":" ++ "9")
  = if ((0 <? decimal_value "16" 0) && (0 <? decimal_value "9" 0))%Z
    then Ok (decimal_value "16" 0, decimal_value "9" 0)
    else Raise ValueError.
Proof.
  refine (parse_ratio_decimal "16" "9" _ _ _ _ _ _);
    try discriminate; try reflexivity; cbn [String.length]; lia.
Defined.

(** X13: a ratio string that is accepted has exactly one colon and two
    positive components. *)
Theorem parse_ratio_accepts_only (s : string) (w_ratio h_ratio : Z) :
  parse_ratio s = Ok (w_ratio, h_ratio) ->
  count ":" s = 1%nat /\ (0 < w_ratio)%Z /\ (0 < h_ratio)%Z.
Proof.
  unfold parse_ratio. pose proof (split_length ":" s) as L.
  destruct (split ":" s) as [|sw [|sh [|x r]]]; try discriminate.
  destruct (int_of_string sw) as [w|]; [|discriminate].
  destruct (int_of_string sh) as [h|]; [|discriminate].
  cbn [Python.bind].
  destruct (Z.leb_spec w 0); [discriminate|].
  destruct (Z.leb_spec h 0); [discriminate|].
  cbn. intros Q. injection Q as <- <-.
  cbn in L. split; [lia|]. split; assumption.
Qed.

Lemma parse_ratio_accepts_only_witness :
  count ":" " +9 : 1_6 " = 1%nat /\ (0 < 9)%Z /\ (0 < 16)%Z.
Proof.
  refine (parse_ratio_accepts_only " +9 : 1_6 " 9 16 _). reflexivity.
Defined.

(** X14: the rounding of a dimension gives the largest even number that
    does not exceed it (for negative numbers too). *)
Theorem make_even_is_largest_even (n : Z) :
  Z.even (Geometry.make_even n) = true
  /\ (Geometry.make_even n <= n)%Z
  /\ forall m, Z.even m = true -> (m <= n)%Z -> (m <= Geometry.make_even n)%Z.
Proof.
  split; [apply OpsFacts.make_even_even|].
  split; [apply OpsFacts.make_even_bounds|].
  intros m Em Le. unfold Geometry.make_even.
  destruct (n mod 2 =? 0)%Z eqn:Q; [exact Le|].
  destruct (Z.eq_dec m n) as [->|Ne]; [|lia].
  rewrite Zeven_mod in Em. congruence.
Qed.

Lemma make_even_is_largest_even_witness : (2 <= Geometry.make_even 3)%Z.
Proof.
  refine (proj2 (proj2 (make_even_is_largest_even 3%Z)) 2%Z _ _); vm_compute; congruence.
Defined.
